(** * Obliterator: login system and certificate API

    A shallow embedding of

    - [obliterator_login/login_system.py]: [SessionManager], [NetworkChecker],
      [AuthManager] and the login-result handler of [FullscreenLoginWindow];
    - [certificate_api/main.py]: [SimpleSupabaseClient] and the request
      handlers of the certificate API.

    Python values that travel through the program (decoded JSON bodies, the
    dictionaries the code builds) are terms of [json]. Exceptions are values of
    [exn]; code that can raise lives in the monad [M], which threads the
    mutable state and keeps state changes made before an exception. The
    network is a function from the request sent to what [requests] returns or
    raises; every request sent is appended to a log, so that "no upload was
    performed" is a statement about the log. *)

From Stdlib Require Import ZArith Ascii String List Bool Lia.
From stdpp Require Import base option list gmap strings pretty.

Local Open Scope Z_scope.
Set Warnings "-register-all".

(* ===================================================================== *)
(** * Python values, exceptions and the effect monad *)
(* ===================================================================== *)

Module Py.

(** A decoded JSON document, which is also the shape of every dictionary the
    program builds. Objects keep their keys in insertion order; numbers are
    integers. *)
Inductive json : Type :=
| JNull
| JBool (b : bool)
| JNum (n : Z)
| JStr (s : string)
| JArr (items : list json)
| JObj (fields : list (string * json)).

(** Every exception the program can meet is an instance of [Exception]:
    FastAPI's [HTTPException] and all the others (from [requests], [json],
    [KeyError], ...), kept with their class name and their [str]. *)
Inductive exn : Type :=
| HTTPException (status_code : Z) (detail : string)
| PyError (cls : string) (msg : string).

Definition result (A : Type) : Type := exn + A.

(** [bool(v)]: what [if v:] and [not v] test. *)
Definition truthy (v : json) : bool :=
  match v with
  | JNull => false
  | JBool b => b
  | JNum n => negb (n =? 0)
  | JStr s => negb (String.eqb s EmptyString)
  | JArr items => match items with [] => false | _ => true end
  | JObj fields => match fields with [] => false | _ => true end
  end.

Fixpoint assoc (k : string) (fields : list (string * json)) : option json :=
  match fields with
  | [] => None
  | (k', v) :: rest => if String.eqb k k' then Some v else assoc k rest
  end.

(** [d.get(k, default)]; only a dict has [get]. *)
Definition dict_get (d : json) (k : string) (default : json) : result json :=
  match d with
  | JObj fields =>
      match assoc k fields with
      | Some v => inr v
      | None => inr default
      end
  | _ => inl (PyError "AttributeError" "object has no attribute 'get'")
  end.

(** [repr(k)] of a key without quote or backslash, as the keys the program
    subscripts with are. *)
Definition key_repr (k : string) : string := "'" +:+ k +:+ "'".

(** [d[k]] with a string key. [str] of a [KeyError] is the [repr] of the
    key. *)
Definition subscript (d : json) (k : string) : result json :=
  match d with
  | JObj fields =>
      match assoc k fields with
      | Some v => inr v
      | None => inl (PyError "KeyError" (key_repr k))
      end
  | _ => inl (PyError "TypeError" "indices must be integers")
  end.

(** [len(v)]. *)
Definition py_len (v : json) : result Z :=
  match v with
  | JArr items => inr (Z.of_nat (length items))
  | JObj fields => inr (Z.of_nat (length fields))
  | JStr s => inr (Z.of_nat (String.length s))
  | _ => inl (PyError "TypeError" "object has no len()")
  end.

(** [v[0]]. *)
Definition index0 (v : json) : result json :=
  match v with
  | JArr (x :: _) => inr x
  | JArr [] => inl (PyError "IndexError" "list index out of range")
  | JStr (String c _) => inr (JStr (String c EmptyString))
  | JStr EmptyString => inl (PyError "IndexError" "string index out of range")
  | JObj _ => inl (PyError "KeyError" "0")
  | _ => inl (PyError "TypeError" "object is not subscriptable")
  end.

(** [s == v] for a [str] on the left: only an equal [str] compares equal. *)
Definition str_eq (s : string) (v : json) : bool :=
  match v with
  | JStr t => String.eqb s t
  | _ => false
  end.

(** [s.startswith(p)]. *)
Definition startswith (s p : string) : bool := String.prefix p s.

(** [s.replace(old, new)] for a non-empty [old]: occurrences are replaced
    from the left, without overlap. [skip] counts the characters of the
    occurrence being replaced that are still to be dropped. *)
Fixpoint replace_from (skip : nat) (old new s : string) : string :=
  match s with
  | EmptyString => EmptyString
  | String c s' =>
      match skip with
      | S k => replace_from k old new s'
      | O =>
          if String.prefix old s
          then new +:+ replace_from (String.length old - 1) old new s'
          else String c (replace_from O old new s')
      end
  end.

Definition replace (s old new : string) : string := replace_from O old new s.

(** A naive [datetime], as microseconds on the local clock. *)
Definition datetime : Type := Z.

(** [timedelta(hours=h)]. *)
Definition hours (h : Z) : Z := h * 3600 * 1000000.

(** The functions of Python's runtime and standard library that the program
    calls. The program is verified for any implementation of them; [Ref]
    below gives one to run it. *)
Record PyLib : Type := {
  (** [repr(v)] of a list or of a dict *)
  py_repr : json -> string;
  (** [str(e)] of an [HTTPException] *)
  http_exception_str : Z -> string -> string;
  json_dumps : json -> string;
  json_loads : string -> result json;
  (** [base64.b64encode], [base64.b64decode] *)
  b64encode : string -> string;
  b64decode : string -> result string;
  (** [bytes.decode()]; [str.encode()] is the identity on these byte strings *)
  bytes_decode : string -> result string;
  (** [datetime.isoformat], [datetime.fromisoformat] *)
  isoformat : datetime -> string;
  fromisoformat : string -> result datetime;
  (** [str(e)] of the [ValidationError] pydantic raises when the field
      [field] of type [str] of the model [model] is given [v], not a string *)
  validation_error_str : string -> string -> json -> string;
}.

(** [str(n)] of an integer. *)
Definition str_of_Z (n : Z) : string :=
  match n with
  | Z0 => "0"
  | Zpos p => pretty (Npos p)
  | Zneg p => "-" +:+ pretty (Npos p)
  end.

(** [str(v)], also what an f-string does to [v]. *)
Definition py_str (lib : PyLib) (v : json) : string :=
  match v with
  | JNull => "None"
  | JBool true => "True"
  | JBool false => "False"
  | JNum n => str_of_Z n
  | JStr s => s
  | JArr _ | JObj _ => py_repr lib v
  end.

(** [str(e)]. *)
Definition exn_str (lib : PyLib) (e : exn) : string :=
  match e with
  | HTTPException c d => http_exception_str lib c d
  | PyError _ msg => msg
  end.

(** ** Requests *)

Inductive http_method : Type := GET | POST.

Inductive payload : Type :=
| NoBody
| JsonBody (j : json)
| RawBody (data : string).

Record request : Type := {
  meth : http_method;
  url : string;
  headers : gmap string string;
  params : gmap string json;
  body : payload;
  (** [timeout=] in seconds, when the call gives one *)
  timeout : option Z;
}.

Record response : Type := {
  status_code : Z;
  text : string;
  (** what [response.json()] returns or raises *)
  json_body : result json;
}.

(** What the outside world answers to a request: a response, or the
    exception [requests] raises (timeout, DNS failure, refused connection). *)
Definition network : Type := request -> result response.

(** ** The effect monad: state, exceptions, and the log of requests sent *)

Definition M (S A : Type) : Type := S -> result A * S.

Definition ret {S A} (a : A) : M S A := fun s => (inr a, s).

Definition bind {S A B} (m : M S A) (k : A -> M S B) : M S B :=
  fun s =>
    match m s with
    | (inr a, s') => k a s'
    | (inl e, s') => (inl e, s')
    end.

Definition raise {S A} (e : exn) : M S A := fun s => (inl e, s).

(** [try: m  except Exception as e: h e] *)
Definition try_except {S A} (m : M S A) (h : exn -> M S A) : M S A :=
  fun s =>
    match m s with
    | (inl e, s') => h e s'
    | (inr a, s') => (inr a, s')
    end.

(** A pure step that may raise. *)
Definition lift {S A} (r : result A) : M S A := fun s => (r, s).

Definition get {S} : M S S := fun s => (inr s, s).
Definition modify {S} (f : S -> S) : M S unit := fun s => (inr tt, f s).

End Py.

Export Py.

Notation "'let*' x ':=' m 'in' k" := (bind m (fun x => k))
  (at level 10, x name, m at level 100, k at level 200).
Notation "m1 ';;' m2" := (bind m1 (fun _ => m2))
  (at level 100, right associativity).

(* ===================================================================== *)
(** * login_system.py *)
(* ===================================================================== *)

Module Login.

(** [AuthManager]: the fields [__init__] sets. *)
Record AuthManager : Type := {
  base_url : string;
  auth_headers : gmap string string;
  current_user : json;
  access_token : json;
}.

(** [AuthManager.__init__] *)
Definition new_auth_manager (supabase_url supabase_key : string) : AuthManager :=
  {| base_url := supabase_url;
     auth_headers :=
       <["apikey" := supabase_key]>
         (<["Authorization" := "Bearer " +:+ supabase_key]>
            (<["Content-Type" := "application/json"]> ∅));
     current_user := JNull;
     access_token := JNull |}.

(** The session file [.session_data]: its content when it exists, and
    whether the directory refuses writes and removals. *)
Record disk : Type := {
  content : option string;
  read_only : bool;
}.

(** The state of the login process. *)
Record state : Type := {
  auth : AuthManager;
  (** [SessionManager.session_data] *)
  session_data : json;
  session_file : disk;
  (** the text and error flag last given to [show_status] *)
  status_label : string * bool;
  (** the requests sent so far, oldest first *)
  sent : list request;
}.

Definition set_auth (f : AuthManager -> AuthManager) (s : state) : state :=
  {| auth := f (auth s); session_data := session_data s;
     session_file := session_file s; status_label := status_label s;
     sent := sent s |}.

Definition set_session_data (d : json) (s : state) : state :=
  {| auth := auth s; session_data := d; session_file := session_file s;
     status_label := status_label s; sent := sent s |}.

Definition set_content (c : option string) (s : state) : state :=
  {| auth := auth s; session_data := session_data s;
     session_file := {| content := c; read_only := read_only (session_file s) |};
     status_label := status_label s; sent := sent s |}.

Definition set_status (msg : string) (error : bool) (s : state) : state :=
  {| auth := auth s; session_data := session_data s;
     session_file := session_file s; status_label := (msg, error);
     sent := sent s |}.

Definition log_request (r : request) (s : state) : state :=
  {| auth := auth s; session_data := session_data s;
     session_file := session_file s; status_label := status_label s;
     sent := sent s ++ [r] |}.

Definition log_requests (rs : list request) (s : state) : state :=
  {| auth := auth s; session_data := session_data s;
     session_file := session_file s; status_label := status_label s;
     sent := sent s ++ rs |}.

(** [requests.get] / [requests.post]: the request is logged, then the
    world answers or the call raises. *)
Definition http (net : network) (r : request) : M state response :=
  fun s => (net r, log_request r s).

(** [os.path.exists(self.session_file)] *)
Definition path_exists : M state bool :=
  fun s =>
    match content (session_file s) with
    | Some _ => (inr true, s)
    | None => (inr false, s)
    end.

(** [open(self.session_file, 'r').read()] *)
Definition read_file : M state string :=
  fun s =>
    match content (session_file s) with
    | Some txt => (inr txt, s)
    | None => (inl (PyError "FileNotFoundError" ".session_data"), s)
    end.

(** [open(self.session_file, 'w').write(txt)] *)
Definition write_file (txt : string) : M state unit :=
  fun s =>
    if read_only (session_file s)
    then (inl (PyError "PermissionError" ".session_data"), s)
    else (inr tt, set_content (Some txt) s).

(** [os.remove(self.session_file)] *)
Definition remove_file : M state unit :=
  fun s =>
    if read_only (session_file s)
    then (inl (PyError "PermissionError" ".session_data"), s)
    else
      match content (session_file s) with
      | Some _ => (inr tt, set_content None s)
      | None => (inl (PyError "FileNotFoundError" ".session_data"), s)
      end.

Section WithLib.
Context (lib : PyLib).

(** ** SessionManager *)

(** [datetime.fromisoformat(v)] on a decoded value. *)
Definition fromisoformat_val (v : json) : result datetime :=
  match v with
  | JStr s => fromisoformat lib s
  | _ => inl (PyError "TypeError" "fromisoformat: argument must be str")
  end.

(** [SessionManager.clear_session] *)
Definition clear_session : M state unit :=
  try_except
    (let* present := path_exists in
     (if present then remove_file else ret tt) ;;
     modify (set_session_data (JObj [])))
    (fun _ => ret tt).

(** [SessionManager.save_session]. [now1] and [now2] are the two readings of
    [datetime.now()], for "timestamp" and for "expires". The [decode()] of
    the base64 text is the identity. *)
Definition save_session (now1 now2 : datetime) (user_data : json)
    (remember_me : bool) : M state unit :=
  let session_info :=
    JObj [("user", user_data);
          ("timestamp", JStr (isoformat lib now1));
          ("remember_me", JBool remember_me);
          ("expires", JStr (isoformat lib (now2 + hours 24)))] in
  let encrypted_data := b64encode lib (json_dumps lib session_info) in
  try_except
    (write_file encrypted_data ;;
     modify (set_session_data session_info))
    (fun _ => ret tt).

(** [SessionManager.load_session], with [now] the reading of
    [datetime.now()] at the expiry test. *)
Definition load_session (now : datetime) : M state (option json) :=
  try_except
    (let* present := path_exists in
     if present then
       let* encrypted_data := read_file in
       let* raw := lift (b64decode lib encrypted_data) in
       let* decrypted_data := lift (bytes_decode lib raw) in
       let* data := lift (json_loads lib decrypted_data) in
       modify (set_session_data data) ;;
       let* exp := lift (dict_get data "expires" (JStr "1970-01-01")) in
       let* expires := lift (fromisoformat_val exp) in
       if now >? expires then
         clear_session ;; ret None
       else
         let* s := get in ret (Some (session_data s))
     else ret None)
    (fun _ => clear_session ;; ret None).

(** [SessionManager.is_valid_session] *)
Definition is_valid_session (now : datetime) : M state bool :=
  let* s := get in
  if negb (truthy (session_data s)) then ret false
  else
    try_except
      (let* exp := lift (dict_get (session_data s) "expires" (JStr "1970-01-01")) in
       let* expires := lift (fromisoformat_val exp) in
       ret (now <? expires))
      (fun _ => ret false).

(** ** NetworkChecker *)

Definition endpoints : list string :=
  ["https://www.google.com"; "https://httpbin.org/get";
   "https://www.cloudflare.com"].

Definition probe_request (endpoint : string) : request :=
  {| meth := GET; url := endpoint; headers := ∅; params := ∅;
     body := NoBody; timeout := Some 5 |}.

(** The [for endpoint in endpoints] loop of [check_internet_connection]. *)
Fixpoint probe (net : network) (es : list string) : M state bool :=
  match es with
  | [] => ret false
  | endpoint :: rest =>
      let* hit :=
        try_except
          (let* response := http net (probe_request endpoint) in
           ret (status_code response =? 200))
          (fun _ => ret false) in
      if hit then ret true else probe net rest
  end.

(** [NetworkChecker.check_internet_connection] *)
Definition check_internet_connection (net : network) : M state bool :=
  try_except (probe net endpoints) (fun _ => ret false).

(** ** AuthManager *)

Definition failure (error : json) : json :=
  JObj [("success", JBool false); ("error", error)].

Definition token_request (self : AuthManager) (email password : string) : request :=
  {| meth := POST;
     url := base_url self +:+ "/auth/v1/token?grant_type=password";
     headers := auth_headers self;
     params := ∅;
     body := JsonBody (JObj [("email", JStr email); ("password", JStr password)]);
     timeout := Some 10 |}.

(** [AuthManager._try_supabase_auth] *)
Definition _try_supabase_auth (net : network) (email password : string)
    : M state json :=
  try_except
    (let* s := get in
     let* response := http net (token_request (auth s) email password) in
     let* result := lift (json_body response) in
     if status_code response =? 200 then
       let* tok := lift (dict_get result "access_token" JNull) in
       modify (set_auth (fun a =>
         {| base_url := base_url a; auth_headers := auth_headers a;
            current_user := current_user a; access_token := tok |})) ;;
       let* user := lift (dict_get result "user" JNull) in
       modify (set_auth (fun a =>
         {| base_url := base_url a; auth_headers := auth_headers a;
            current_user := user; access_token := access_token a |})) ;;
       ret (JObj [("success", JBool true); ("data", result);
                  ("method", JStr "supabase_auth")])
     else
       let* err := lift (dict_get result "error_description" (JStr "Auth failed")) in
       ret (failure err))
    (fun e => ret (failure (JStr (exn_str lib e)))).

(** [AuthManager._verify_password] *)
Definition _verify_password (provided_password : string) (stored_password : json)
    : bool :=
  if negb (truthy stored_password) then false
  else str_eq provided_password stored_password.

Definition users_request (self : AuthManager) (email : string) : request :=
  {| meth := GET;
     url := base_url self +:+ "/rest/v1/" +:+ "Users";
     headers := auth_headers self;
     params := <["email" := JStr ("eq." +:+ email)]> (<["select" := JStr "*"]> ∅);
     body := NoBody;
     timeout := Some 10 |}.

(** [AuthManager._try_user_table_auth] *)
Definition _try_user_table_auth (net : network) (email password : string)
    : M state json :=
  try_except
    (let* s := get in
     let* response := http net (users_request (auth s) email) in
     if status_code response =? 200 then
       let* users := lift (json_body response) in
       let* _n := lift (py_len users) in
       if negb (truthy users) then ret (failure (JStr "User not found"))
       else
         let* user := lift (index0 users) in
         let* stored_password := lift (dict_get user "password" JNull) in
         if _verify_password password stored_password then
           let* id := lift (dict_get user "id" JNull) in
           let* mail := lift (dict_get user "email" JNull) in
           let* created := lift (dict_get user "created_at" JNull) in
           let user_data :=
             JObj [("id", JStr (py_str lib id));
                   ("email", mail);
                   ("user_metadata", JObj [("table_name", JStr "Users")]);
                   ("created_at", created);
                   ("table_auth", JBool true)] in
           modify (set_auth (fun a =>
             {| base_url := base_url a; auth_headers := auth_headers a;
                current_user := user_data; access_token := access_token a |})) ;;
           modify (set_auth (fun a =>
             {| base_url := base_url a; auth_headers := auth_headers a;
                current_user := current_user a;
                access_token := JStr ("table_auth_" +:+ py_str lib id) |})) ;;
           ret (JObj [("success", JBool true);
                      ("data", JObj [("user", user_data)]);
                      ("method", JStr "user_table")])
         else ret (failure (JStr "Invalid password"))
     else
       ret (failure (JStr ("Database query failed: "
                           +:+ py_str lib (JNum (status_code response))))))
    (fun e => ret (failure (JStr (exn_str lib e)))).

(** [AuthManager.sign_in] *)
Definition sign_in (net : network) (email password : string) : M state json :=
  let* online := check_internet_connection net in
  if negb online then
    ret (failure (JStr "No internet connection available"))
  else
    try_except
      (let* auth_result := _try_supabase_auth net email password in
       let* ok1 := lift (subscript auth_result "success") in
       if truthy ok1 then ret auth_result
       else
         let* table_result := _try_user_table_auth net email password in
         let* ok2 := lift (subscript table_result "success") in
         if truthy ok2 then ret table_result
         else ret (failure (JStr "Invalid email or password")))
      (fun e => ret (failure (JStr ("Connection error: " +:+ exn_str lib e)))).

(** [AuthManager.sign_out] *)
Definition sign_out : M state unit :=
  modify (set_auth (fun a =>
    {| base_url := base_url a; auth_headers := auth_headers a;
       current_user := JNull; access_token := JNull |})).

(** ** FullscreenLoginWindow *)

(** [show_status] *)
Definition show_status (message : string) (error : bool) : M state unit :=
  modify (set_status message error).

(** [_handle_login_result], with [remember] the value of the "remember me"
    box. Returns the user for whom [on_login_success] is scheduled. *)
Definition _handle_login_result (now1 now2 : datetime) (result : json)
    (remember : bool) : M state (option json) :=
  let* ok := lift (subscript result "success") in
  if truthy ok then
    let* data := lift (subscript result "data") in
    let* user_data := lift (subscript data "user") in
    save_session now1 now2 user_data remember ;;
    show_status "Login successful!" false ;;
    ret (Some user_data)
  else
    let* err := lift (subscript result "error") in
    show_status (py_str lib err) true ;;
    ret None.

(** [__perform_login] followed by the hand-off to [_handle_login_result]. *)
Definition _perform_login (net : network) (now1 now2 : datetime)
    (email password : string) (remember : bool) : M state (option json) :=
  let* result := sign_in net email password in
  _handle_login_result now1 now2 result remember.

(** [check_existing_session]: [now1] is the clock reading inside
    [load_session], [now2] the one inside [is_valid_session]. Returns the
    user resumed without sign-in, if any. *)
Definition check_existing_session (now1 now2 : datetime) : M state (option json) :=
  let* loaded := load_session now1 in
  match loaded with
  | None => ret None
  | Some data =>
      if negb (truthy data) then ret None
      else
        let* valid := is_valid_session now2 in
        if negb valid then ret None
        else
          let* rm := lift (dict_get data "remember_me" (JBool false)) in
          if truthy rm then
            let* user := lift (subscript data "user") in
            modify (set_auth (fun a =>
              {| base_url := base_url a; auth_headers := auth_headers a;
                 current_user := user; access_token := access_token a |})) ;;
            ret (Some user)
          else ret None
  end.

(** ** The stages of a sign-in, named *)

(** [r["success"]] of a strategy's result. *)
Definition succeeded (r : json) : bool :=
  match subscript r "success" with
  | inr v => truthy v
  | inl _ => false
  end.

(** The connectivity check at the start of [sign_in] passes. *)
Definition online (net : network) (s : state) : bool :=
  match check_internet_connection net s with
  | (inr b, _) => b
  | (inl _, _) => false
  end.

(** Strategy REMOTE_AUTH as [sign_in] runs it, after the connectivity check. *)
Definition remote_auth (net : network) (email password : string) (s : state)
    : result json * state :=
  _try_supabase_auth net email password (snd (check_internet_connection net s)).

(** Strategy TABLE_LOOKUP as [sign_in] runs it, after REMOTE_AUTH. *)
Definition table_lookup (net : network) (email password : string) (s : state)
    : result json * state :=
  _try_user_table_auth net email password (snd (remote_auth net email password s)).

Definition stage_succeeds (run : result json * state) : bool :=
  match run with
  | (inr r, _) => succeeded r
  | (inl _, _) => false
  end.

(** The answer of the identity service that makes REMOTE_AUTH succeed:
    status 200 with a JSON object. *)
Definition remote_grant (net : network) (req : request)
    : option (list (string * json)) :=
  match net req with
  | inr resp =>
      if status_code resp =? 200 then
        match json_body resp with
        | inr (JObj kv) => Some kv
        | _ => None
        end
      else None
  | inl _ => None
  end.

Definition or_null (o : option json) : json :=
  match o with
  | Some v => v
  | None => JNull
  end.

(** The identity TABLE_LOOKUP synthesizes from a row of the Users table. *)
Definition table_user (row : json) : json :=
  match row with
  | JObj kv =>
      JObj [("id", JStr (py_str lib (or_null (assoc "id" kv))));
            ("email", or_null (assoc "email" kv));
            ("user_metadata", JObj [("table_name", JStr "Users")]);
            ("created_at", or_null (assoc "created_at" kv));
            ("table_auth", JBool true)]
  | _ => JNull
  end.

Definition table_token (row : json) : json :=
  match row with
  | JObj kv => JStr ("table_auth_" +:+ py_str lib (or_null (assoc "id" kv)))
  | _ => JNull
  end.

(** The first row of the answer of the Users table, when the answer is a
    list whose first row is an object with a password that verifies. *)
Definition table_hit (net : network) (req : request) (password : string)
    : option json :=
  match net req with
  | inr resp =>
      if status_code resp =? 200 then
        match json_body resp with
        | inr (JArr (JObj kv :: _)) =>
            if _verify_password password (or_null (assoc "password" kv))
            then Some (JObj kv) else None
        | _ => None
        end
      else None
  | inl _ => None
  end.

(** Strategy REMOTE_AUTH succeeds, or fails, in a run of [sign_in]: the
    connectivity check passed, the strategy ran, and this is its outcome. *)
Definition remote_succeeds (net : network) (email password : string) (s : state)
    : bool :=
  online net s && stage_succeeds (remote_auth net email password s).

Definition remote_fails (net : network) (email password : string) (s : state)
    : bool :=
  online net s && negb (stage_succeeds (remote_auth net email password s)).

(** Both strategies fail in a run of [sign_in]. *)
Definition both_fail (net : network) (email password : string) (s : state) : bool :=
  remote_fails net email password s
  && negb (stage_succeeds (table_lookup net email password s)).

(** The HTTP layer errors at a request: [requests] raises, or the server
    answers 5xx. *)
Definition http_layer_error (net : network) (r : request) : bool :=
  match net r with
  | inl _ => true
  | inr response => 500 <=? status_code response
  end.

(** The HTTP layer errors at REMOTE_AUTH, or at TABLE_LOOKUP, in a run of
    [sign_in] that reaches the strategy. *)
Definition http_error_at_remote (net : network) (email password : string)
    (s : state) : bool :=
  online net s && http_layer_error net (token_request (auth s) email password).

Definition http_error_at_table (net : network) (email password : string)
    (s : state) : bool :=
  remote_fails net email password s
  && http_layer_error net (users_request (auth s) email).

(** What [load_session] makes of the text of the session file. *)
Definition decode_text (txt : string) : result json :=
  match b64decode lib txt with
  | inr raw =>
      match bytes_decode lib raw with
      | inr decrypted_data => json_loads lib decrypted_data
      | inl e => inl e
      end
  | inl e => inl e
  end.

(** The record [save_session] builds, and the text it writes. *)
Definition session_info (now1 now2 : datetime) (user_data : json)
    (remember_me : bool) : json :=
  JObj [("user", user_data);
        ("timestamp", JStr (isoformat lib now1));
        ("remember_me", JBool remember_me);
        ("expires", JStr (isoformat lib (now2 + hours 24)))].

Definition session_text (info : json) : string :=
  b64encode lib (json_dumps lib info).

End WithLib.

End Login.

(* ===================================================================== *)
(** * certificate_api/main.py *)
(* ===================================================================== *)

Module CertificateApi.

Fixpoint drop_slashes (l : list ascii) : list ascii :=
  match l with
  | c :: rest => if Ascii.eqb c "/" then drop_slashes rest else l
  | [] => []
  end.

(** [url.rstrip('/')] *)
Definition rstrip_slash (s : string) : string :=
  string_of_list_ascii (rev (drop_slashes (rev (list_ascii_of_string s)))).

(** [SimpleSupabaseClient]: the fields [__init__] sets. *)
Record SimpleSupabaseClient : Type := {
  client_url : string;
  key : string;
  client_headers : gmap string string;
}.

(** [SimpleSupabaseClient.__init__] *)
Definition new_client (url key : string) : SimpleSupabaseClient :=
  {| client_url := rstrip_slash url;
     key := key;
     client_headers :=
       <["apikey" := key]>
         (<["Authorization" := "Bearer " +:+ key]>
            (<["Content-Type" := "application/json"]> ∅)) |}.

(** [SanitizationDetails] *)
Record SanitizationDetails : Type := {
  manufacturer : string;
  model : string;
  serial_number : string;
  property_number : option string;
  media_type : string;
  media_source : string;
  pre_sanitization_confidentiality : option string;
  sanitization_method : string;
  sanitization_technique : string;
  tool_used : string;
  verification_method : string;
  post_sanitization_confidentiality : option string;
  post_sanitization_destination : option string;
}.

(** [CertificateResponse] *)
Record CertificateResponse : Type := {
  certificate_id : string;
  pdf_url : string;
  created_at : string;
  user_id : string;
  device_model : string;
  message : string;
}.

(** What a request to the API meets outside the handler: the network, the
    UUID drawn, the document [generate_pdf_certificate] lays out (or the
    exception it raises), and the two later readings of [datetime.now()]. *)
Record world : Type := {
  net : network;
  uuid4 : string;
  generate_pdf_certificate : SanitizationDetails -> string -> json -> result string;
  now_record : datetime;
  now_reply : datetime;
}.

(** The handlers keep no state; the state of the monad is the log of the
    requests sent, oldest first. *)
Definition http (w : world) (r : request) : M (list request) response :=
  fun log => (net w r, log ++ [r]).

(** The HTTP status the framework answers with: 200 for a returned value,
    the status of a raised [HTTPException], 500 for any other exception. *)
Definition http_status {A} (outcome : result A) : Z :=
  match outcome with
  | inr _ => 200
  | inl (HTTPException c _) => c
  | inl (PyError _ _) => 500
  end.

(** A value of type [Optional[str]] inside a dictionary. *)
Definition opt_str (o : option string) : json :=
  match o with
  | Some s => JStr s
  | None => JNull
  end.

Section WithLib.
Context (lib : PyLib) (supabase : SimpleSupabaseClient).

(** ** SimpleSupabaseClient *)

Definition verify_request (token : string) : request :=
  {| meth := GET;
     url := client_url supabase +:+ "/auth/v1/user";
     headers :=
       <["apikey" := key supabase]>
         (<["Authorization" := "Bearer " +:+ token]>
            (<["Content-Type" := "application/json"]> ∅));
     params := ∅; body := NoBody; timeout := None |}.

(** [verify_user]; Python's [None] is [JNull]. *)
Definition verify_user (w : world) (token : string) : M (list request) json :=
  let* response := http w (verify_request token) in
  if status_code response =? 200 then lift (json_body response)
  else ret JNull.

Definition upload_request (bucket filename file_data : string) : request :=
  {| meth := POST;
     url := client_url supabase +:+ "/storage/v1/object/" +:+ bucket +:+ "/" +:+ filename;
     headers :=
       <["apikey" := key supabase]>
         (<["Authorization" := "Bearer " +:+ key supabase]>
            (<["Content-Type" := "application/pdf"]> ∅));
     params := ∅; body := RawBody file_data; timeout := None |}.

(** [upload_file] *)
Definition upload_file (w : world) (bucket filename file_data : string)
    : M (list request) response :=
  http w (upload_request bucket filename file_data).

(** [get_public_url] *)
Definition get_public_url (bucket filename : string) : string :=
  client_url supabase +:+ "/storage/v1/object/public/" +:+ bucket +:+ "/" +:+ filename.

Definition insert_request (table : string) (data : json) : request :=
  {| meth := POST;
     url := client_url supabase +:+ "/rest/v1/" +:+ table;
     headers := client_headers supabase;
     params := ∅; body := JsonBody data; timeout := None |}.

(** [insert_record] *)
Definition insert_record (w : world) (table : string) (data : json)
    : M (list request) response :=
  http w (insert_request table data).

(** [if limit:] on an [Optional[int]]. *)
Definition int_truthy (o : option Z) : bool :=
  match o with
  | Some n => negb (n =? 0)
  | None => false
  end.

(** [params['limit'] = limit] stores the integer itself. *)
Definition opt_int (o : option Z) : json :=
  match o with
  | Some n => JNum n
  | None => JNull
  end.

(** [if filters:] on an optional dictionary, and its [items()]. *)
Definition dict_truthy (o : option (list (string * json))) : bool :=
  match o with
  | Some (_ :: _) => true
  | _ => false
  end.

Definition items (o : option (list (string * json))) : list (string * json) :=
  match o with
  | Some kvs => kvs
  | None => []
  end.

(** The [params] dictionary [select_records] builds. *)
Definition select_params (filters : option (list (string * json)))
    (limit offset : option Z) : gmap string json :=
  let params : gmap string json := ∅ in
  let params :=
    if dict_truthy filters then
      fold_left
        (fun acc kv => <[fst kv := JStr ("eq." +:+ py_str lib (snd kv))]> acc)
        (items filters) params
    else params in
  let params :=
    if int_truthy limit then <["limit" := opt_int limit]> params else params in
  let params :=
    if int_truthy offset then <["offset" := opt_int offset]> params else params in
  params.

Definition select_request (table : string) (filters : option (list (string * json)))
    (limit offset : option Z) : request :=
  {| meth := GET;
     url := client_url supabase +:+ "/rest/v1/" +:+ table;
     headers := client_headers supabase;
     params := select_params filters limit offset;
     body := NoBody; timeout := None |}.

(** [select_records] *)
Definition select_records (w : world) (table : string)
    (filters : option (list (string * json))) (limit offset : option Z)
    : M (list request) response :=
  http w (select_request table filters limit offset).

(** ** Request handlers *)

(** The first lines of every authenticated handler: the header test, the
    token extraction and [verify_user]. Returns [user_info]. *)
Definition authenticate (w : world) (authorization : option string)
    : M (list request) json :=
  match authorization with
  | None => raise (HTTPException 401 "Missing or invalid authorization header")
  | Some header =>
      if String.eqb header EmptyString || negb (startswith header "Bearer ") then
        raise (HTTPException 401 "Missing or invalid authorization header")
      else
        let token := replace header "Bearer " EmptyString in
        let* user_info := verify_user w token in
        if negb (truthy user_info) then
          raise (HTTPException 401 "Invalid authentication token")
        else ret user_info
  end.

Definition ok_status (c : Z) : bool := (c =? 200) || (c =? 201).

(** [generate_certificate]: POST /generate-certificate *)
Definition generate_certificate (w : world) (details : SanitizationDetails)
    (authorization : option string) : M (list request) CertificateResponse :=
  try_except
    (let* user_info := authenticate w authorization in
     let* user_id := lift (subscript user_info "id") in
     let* user_email := lift (dict_get user_info "email" (JStr "unknown@example.com")) in
     let certificate_id := uuid4 w in
     let* pdf_bytes := lift (generate_pdf_certificate w details certificate_id user_email) in
     let safe_model := replace (replace (model details) " " "_") "/" "_" in
     let filename :=
       "cert_" +:+ py_str lib user_id +:+ "_" +:+ safe_model +:+ "_"
       +:+ certificate_id +:+ ".pdf" in
     let* upload_response := upload_file w "certificates" filename pdf_bytes in
     if negb (ok_status (status_code upload_response)) then
       raise (HTTPException 500 ("Failed to upload PDF: " +:+ text upload_response))
     else
       let pdf_url := get_public_url "certificates" filename in
       let certificate_data :=
         JObj [("certificate_id", JStr certificate_id);
               ("user_id", user_id);
               ("user_email", user_email);
               ("manufacturer", JStr (manufacturer details));
               ("model", JStr (model details));
               ("serial_number", JStr (serial_number details));
               ("property_number", opt_str (property_number details));
               ("media_type", JStr (media_type details));
               ("media_source", JStr (media_source details));
               ("pre_sanitization_confidentiality",
                opt_str (pre_sanitization_confidentiality details));
               ("sanitization_method", JStr (sanitization_method details));
               ("sanitization_technique", JStr (sanitization_technique details));
               ("tool_used", JStr (tool_used details));
               ("verification_method", JStr (verification_method details));
               ("post_sanitization_confidentiality",
                opt_str (post_sanitization_confidentiality details));
               ("post_sanitization_destination",
                opt_str (post_sanitization_destination details));
               ("pdf_url", JStr pdf_url);
               ("created_at", JStr (isoformat lib (now_record w)))] in
       let* db_response := insert_record w "certificates" certificate_data in
       if negb (ok_status (status_code db_response)) then
         raise (HTTPException 500
                  ("Failed to store certificate in database: " +:+ text db_response))
       else
         match user_id with
         | JStr uid =>
             ret {| certificate_id := certificate_id;
                    pdf_url := pdf_url;
                    created_at := isoformat lib (now_reply w);
                    user_id := uid;
                    device_model := model details;
                    message := "Certificate generated and stored successfully" |}
         | _ =>
             raise (PyError "ValidationError"
                      (validation_error_str lib "CertificateResponse" "user_id"
                         user_id))
         end)
    (fun e =>
       raise (HTTPException 500 ("Error generating certificate: " +:+ exn_str lib e))).

(** [get_my_certificates]: GET /my-certificates *)
Definition get_my_certificates (w : world) (authorization : option string)
    (limit offset : Z) : M (list request) json :=
  try_except
    (let* user_info := authenticate w authorization in
     let* user_id := lift (subscript user_info "id") in
     let* response :=
       select_records w "certificates" (Some [("user_id", user_id)])
                      (Some limit) (Some offset) in
     if negb (status_code response =? 200) then
       raise (HTTPException 500 ("Database error: " +:+ text response))
     else
       let* data := lift (json_body response) in
       let* count := lift (py_len data) in
       ret (JObj [("user_id", user_id); ("certificates", data);
                  ("count", JNum count)]))
    (fun e =>
       raise (HTTPException 500 ("Error retrieving certificates: " +:+ exn_str lib e))).

(** [get_certificates_by_device]: GET /certificates-by-device/{model} *)
Definition get_certificates_by_device (w : world) (model : string)
    (authorization : option string) : M (list request) json :=
  try_except
    (let* user_info := authenticate w authorization in
     let* user_id := lift (subscript user_info "id") in
     let* response :=
       select_records w "certificates"
                      (Some [("user_id", user_id); ("model", JStr model)])
                      None None in
     if negb (status_code response =? 200) then
       raise (HTTPException 500 ("Database error: " +:+ text response))
     else
       let* data := lift (json_body response) in
       if negb (truthy data) then
         raise (HTTPException 404
                  ("No certificates found for device model: " +:+ model))
       else
         let* first := lift (index0 data) in
         let* maker := lift (subscript first "manufacturer") in
         let* total := lift (py_len data) in
         ret (JObj [("device_model", JStr model); ("manufacturer", maker);
                    ("total_certificates", JNum total); ("certificates", data)]))
    (fun e =>
       raise (HTTPException 500
                ("Error retrieving device certificates: " +:+ exn_str lib e))).

(** [get_user_info]: GET /user-info *)
Definition get_user_info (w : world) (authorization : option string)
    : M (list request) json :=
  try_except
    (let* user_info := authenticate w authorization in
     let* uid := lift (subscript user_info "id") in
     let* email := lift (dict_get user_info "email" JNull) in
     ret (JObj [("user_id", uid); ("email", email); ("authenticated", JBool true)]))
    (fun e =>
       raise (HTTPException 401 ("Authentication error: " +:+ exn_str lib e))).

(** ** Conditions on a request, named *)

(** The details of the two 401s [authenticate] raises. *)
Definition missing_header : string := "Missing or invalid authorization header".
Definition invalid_token : string := "Invalid authentication token".

(** The identity service answers the verification of [token], and not
    with 200: [verify_user] returns [None]. *)
Definition verification_fails (w : world) (token : string) : bool :=
  match net w (verify_request token) with
  | inr response => negb (status_code response =? 200)
  | inl _ => false
  end.

(** The Authorization header is missing, is not of Bearer shape, or carries
    a token that fails verification. *)
Definition unauthorized (w : world) (authorization : option string) : bool :=
  match authorization with
  | None => true
  | Some header =>
      negb (startswith header "Bearer ")
      || verification_fails w (replace header "Bearer " EmptyString)
  end.

(** The database answers a query with 200 and no row. *)
Definition zero_rows (w : world) (query : request) : bool :=
  match net w query with
  | inr response =>
      (status_code response =? 200)
      && match json_body response with
         | inr (JArr []) => true
         | _ => false
         end
  | inl _ => false
  end.

End WithLib.

End CertificateApi.

(* ===================================================================== *)
(** * A reference implementation of the library functions *)
(* ===================================================================== *)

Module Ref.

(** These functions run the examples. They agree with CPython on what the
    examples feed them: ASCII text, integers, objects, lists, strings
    without [\u] escapes, and dates in the forms [isoformat] writes.
    Outside of that they are narrower than the library: [json_dumps] copies
    a byte above 127 where Python writes a [\u] escape, [json_loads] has no
    floating-point numbers and no [\u] escapes, and [fromisoformat] refuses
    the other ISO forms Python reads. *)

Definition chars (s : string) : list ascii := list_ascii_of_string s.
Definition of_chars (l : list ascii) : string := string_of_list_ascii l.
Definition code (c : ascii) : Z := Z.of_N (N_of_ascii c).
Definition chr (n : Z) : ascii := ascii_of_N (Z.to_N n).

Fixpoint join (sep : string) (l : list string) : string :=
  match l with
  | [] => EmptyString
  | [x] => x
  | x :: rest => x +:+ sep +:+ join sep rest
  end.

(** [repr(v)], with strings in single quotes. *)
Fixpoint py_repr (v : json) : string :=
  match v with
  | JNull => "None"
  | JBool true => "True"
  | JBool false => "False"
  | JNum n => str_of_Z n
  | JStr s => "'" +:+ s +:+ "'"
  | JArr l => "[" +:+ join ", " (map py_repr l) +:+ "]"
  | JObj fields =>
      "{" +:+ join ", " (map (fun '(k, x) => "'" +:+ k +:+ "': " +:+ py_repr x) fields)
      +:+ "}"
  end.

(** Starlette's [HTTPException.__str__]. *)
Definition http_exception_str (c : Z) (detail : string) : string :=
  str_of_Z c +:+ ": " +:+ detail.

(** ** json *)

Definition dquote : ascii := chr 34.
Definition backslash : ascii := chr 92.

Fixpoint escape (cs : list ascii) : list ascii :=
  match cs with
  | [] => []
  | c :: rest =>
      (if Ascii.eqb c dquote then [backslash; dquote]
       else if Ascii.eqb c backslash then [backslash; backslash]
       else if code c =? 10 then [backslash; "n"%char]
       else if code c =? 13 then [backslash; "r"%char]
       else if code c =? 9 then [backslash; "t"%char]
       else [c]) ++ escape rest
  end.

Definition quote (s : string) : string :=
  of_chars (dquote :: escape (chars s) ++ [dquote]).

(** [json.dumps] with its default separators. *)
Fixpoint json_dumps (v : json) : string :=
  match v with
  | JNull => "null"
  | JBool true => "true"
  | JBool false => "false"
  | JNum n => str_of_Z n
  | JStr s => quote s
  | JArr l => "[" +:+ join ", " (map json_dumps l) +:+ "]"
  | JObj fields =>
      "{" +:+ join ", " (map (fun '(k, x) => quote k +:+ ": " +:+ json_dumps x) fields)
      +:+ "}"
  end.

Definition is_digit (c : ascii) : bool := (48 <=? code c) && (code c <=? 57).

Definition is_space (c : ascii) : bool :=
  (code c =? 32) || (code c =? 10) || (code c =? 13) || (code c =? 9).

Fixpoint skip_ws (cs : list ascii) : list ascii :=
  match cs with
  | c :: rest => if is_space c then skip_ws rest else cs
  | [] => []
  end.

(** The digits at the head of [cs], as a number, and what follows. *)
Fixpoint read_digits (acc : Z) (cs : list ascii) : Z * list ascii :=
  match cs with
  | c :: rest => if is_digit c then read_digits (10 * acc + (code c - 48)) rest
                 else (acc, cs)
  | [] => (acc, [])
  end.

(** The body of a string literal, after the opening quote. *)
Fixpoint read_string (cs : list ascii) : option (list ascii * list ascii) :=
  match cs with
  | [] => None
  | c :: rest =>
      if Ascii.eqb c dquote then Some ([], rest)
      else if Ascii.eqb c backslash then
        match rest with
        | e :: rest' =>
            let plain :=
              if Ascii.eqb e "n" then chr 10
              else if Ascii.eqb e "r" then chr 13
              else if Ascii.eqb e "t" then chr 9
              else e in
            '(s, k) ← read_string rest'; Some (plain :: s, k)
        | [] => None
        end
      else '(s, k) ← read_string rest; Some (c :: s, k)
  end.

Definition starts (p : string) (cs : list ascii) : option (list ascii) :=
  if String.prefix p (of_chars cs)
  then Some (skipn (String.length p) cs) else None.

(** The next character that is not white space, and what follows it. *)
Definition next (cs : list ascii) : option (ascii * list ascii) :=
  match skip_ws cs with
  | c :: rest => Some (c, rest)
  | [] => None
  end.

(** [d[k] = v]: a key already present keeps its place and takes the new
    value. *)
Fixpoint update (k : string) (v : json) (fields : list (string * json))
    : list (string * json) :=
  match fields with
  | [] => [(k, v)]
  | (k', v') :: rest =>
      if String.eqb k k' then (k', v) :: rest else (k', v') :: update k v rest
  end.

(** The dict of the members of an object, in the order read: of a repeated
    name the last value stays. *)
Definition dict_of (members : list (string * json)) : list (string * json) :=
  fold_left (fun acc kv => update (fst kv) (snd kv) acc) members [].

(** One value; [elems] and [members] read the rest of an array or of an
    object after its first item. *)
Fixpoint parse_value (fuel : nat) (cs : list ascii) : option (json * list ascii) :=
  match fuel with
  | O => None
  | S fuel' =>
      '(c, rest) ← next cs;
      if Ascii.eqb c dquote then
        '(s, k) ← read_string rest; Some (JStr (of_chars s), k)
      else if Ascii.eqb c "[" then
        '(c', rest') ← next rest;
        if Ascii.eqb c' "]" then Some (JArr [], rest')
        else
          '(v, k) ← parse_value fuel' rest;
          '(vs, k') ← elems fuel' k;
          Some (JArr (v :: vs), k')
      else if Ascii.eqb c "{" then
        '(c', rest') ← next rest;
        if Ascii.eqb c' "}" then Some (JObj [], rest')
        else
          '(kv, k) ← member fuel' rest;
          '(kvs, k') ← members fuel' k;
          Some (JObj (dict_of (kv :: kvs)), k')
      else if Ascii.eqb c "-" then
        match rest with
        | d :: _ =>
            if is_digit d then
              let '(n, k) := read_digits 0 rest in Some (JNum (- n), k)
            else None
        | [] => None
        end
      else if is_digit c then
        let '(n, k) := read_digits 0 (c :: rest) in Some (JNum n, k)
      else
        match starts "null" (c :: rest), starts "true" (c :: rest),
              starts "false" (c :: rest) with
        | Some k, _, _ => Some (JNull, k)
        | _, Some k, _ => Some (JBool true, k)
        | _, _, Some k => Some (JBool false, k)
        | _, _, _ => None
        end
  end
with elems (fuel : nat) (cs : list ascii) : option (list json * list ascii) :=
  match fuel with
  | O => None
  | S fuel' =>
      '(c, rest) ← next cs;
      if Ascii.eqb c "]" then Some ([], rest)
      else if Ascii.eqb c "," then
        '(v, k) ← parse_value fuel' rest;
        '(vs, k') ← elems fuel' k;
        Some (v :: vs, k')
      else None
  end
with member (fuel : nat) (cs : list ascii) : option ((string * json) * list ascii) :=
  match fuel with
  | O => None
  | S fuel' =>
      '(c, rest) ← next cs;
      if Ascii.eqb c dquote then
        '(name, k) ← read_string rest;
        '(c', k') ← next k;
        if Ascii.eqb c' ":" then
          '(v, k'') ← parse_value fuel' k'; Some ((of_chars name, v), k'')
        else None
      else None
  end
with members (fuel : nat) (cs : list ascii)
    : option (list (string * json) * list ascii) :=
  match fuel with
  | O => None
  | S fuel' =>
      '(c, rest) ← next cs;
      if Ascii.eqb c "}" then Some ([], rest)
      else if Ascii.eqb c "," then
        '(kv, k) ← member fuel' rest;
        '(kvs, k') ← members fuel' k;
        Some (kv :: kvs, k')
      else None
  end.

(** [json.loads]; the input's length bounds the depth of the calls. *)
Definition json_loads (s : string) : result json :=
  match parse_value (S (String.length s)) (chars s) with
  | Some (v, rest) =>
      match skip_ws rest with
      | [] => inr v
      | _ => inl (PyError "JSONDecodeError" "Extra data")
      end
  | None => inl (PyError "JSONDecodeError" "Expecting value")
  end.

(** ** base64 *)

Definition b64_char (n : Z) : ascii :=
  if n <? 26 then chr (65 + n)
  else if n <? 52 then chr (97 + (n - 26))
  else if n <? 62 then chr (48 + (n - 52))
  else if n =? 62 then "+"%char
  else "/"%char.

Definition b64_value (c : ascii) : option Z :=
  let n := code c in
  if (65 <=? n) && (n <=? 90) then Some (n - 65)
  else if (97 <=? n) && (n <=? 122) then Some (n - 97 + 26)
  else if (48 <=? n) && (n <=? 57) then Some (n - 48 + 52)
  else if n =? 43 then Some 62
  else if n =? 47 then Some 63
  else None.

Fixpoint b64_groups (bs : list ascii) : list ascii :=
  match bs with
  | [] => []
  | [a] =>
      let n := code a * 65536 in
      [b64_char (n / 262144); b64_char (n / 4096 mod 64); "="%char; "="%char]
  | [a; b] =>
      let n := code a * 65536 + code b * 256 in
      [b64_char (n / 262144); b64_char (n / 4096 mod 64);
       b64_char (n / 64 mod 64); "="%char]
  | a :: b :: c :: rest =>
      let n := code a * 65536 + code b * 256 + code c in
      b64_char (n / 262144) :: b64_char (n / 4096 mod 64)
        :: b64_char (n / 64 mod 64) :: b64_char (n mod 64) :: b64_groups rest
  end.

Definition b64encode (s : string) : string := of_chars (b64_groups (chars s)).

Definition incorrect_padding : exn := PyError "binascii.Error" "Incorrect padding".

Fixpoint b64_ungroup (fuel : nat) (cs : list ascii) : result (list ascii) :=
  match fuel with
  | O => inl incorrect_padding
  | S fuel' =>
      match cs with
      | [] => inr []
      | a :: b :: c :: d :: rest =>
          match b64_value a, b64_value b, b64_value c, b64_value d with
          | Some x, Some y, Some z, Some t =>
              let n := x * 262144 + y * 4096 + z * 64 + t in
              match b64_ungroup fuel' rest with
              | inr out => inr (chr (n / 65536) :: chr (n / 256 mod 256)
                                  :: chr (n mod 256) :: out)
              | inl e => inl e
              end
          | Some x, Some y, Some z, None =>
              let n := x * 262144 + y * 4096 + z * 64 in
              inr [chr (n / 65536); chr (n / 256 mod 256)]
          | Some x, Some y, None, None =>
              let n := x * 262144 + y * 4096 in
              inr [chr (n / 65536)]
          | _, _, _, _ => inl incorrect_padding
          end
      | _ => inl incorrect_padding
      end
  end.

(** [base64.b64decode]: characters outside the alphabet are discarded. *)
Definition b64decode (s : string) : result string :=
  let cs := filter (fun c => bool_decide (is_Some (b64_value c)) || Ascii.eqb c "=")
                   (chars s) in
  match b64_ungroup (S (length cs)) cs with
  | inr out => inr (of_chars out)
  | inl e => inl e
  end.

(** ** utf-8 *)

Definition is_cont (c : ascii) : bool := (128 <=? code c) && (code c <? 192).

Fixpoint utf8_ok (pending : nat) (cs : list ascii) : bool :=
  match cs with
  | [] => match pending with O => true | _ => false end
  | c :: rest =>
      match pending with
      | S k => is_cont c && utf8_ok k rest
      | O =>
          let n := code c in
          if n <? 128 then utf8_ok 0 rest
          else if (194 <=? n) && (n <? 224) then utf8_ok 1 rest
          else if (224 <=? n) && (n <? 240) then utf8_ok 2 rest
          else if (240 <=? n) && (n <? 245) then utf8_ok 3 rest
          else false
      end
  end.

Definition bytes_decode (s : string) : result string :=
  if utf8_ok 0 (chars s) then inr s
  else inl (PyError "UnicodeDecodeError" "invalid utf-8").

(** ** datetime *)

Definition usec_per_day : Z := 86400 * 1000000.

(** Days since 1970-01-01 of a date of the proleptic Gregorian calendar. *)
Definition days_from_civil (y m d : Z) : Z :=
  let y := if m <=? 2 then y - 1 else y in
  let era := y / 400 in
  let yoe := y - era * 400 in
  let doy := (153 * (if 2 <? m then m - 3 else m + 9) + 2) / 5 + d - 1 in
  let doe := yoe * 365 + yoe / 4 - yoe / 100 + doy in
  era * 146097 + doe - 719468.

Definition civil_from_days (z : Z) : Z * Z * Z :=
  let z := z + 719468 in
  let era := z / 146097 in
  let doe := z - era * 146097 in
  let yoe := (doe - doe / 1460 + doe / 36524 - doe / 146096) / 365 in
  let doy := doe - (365 * yoe + yoe / 4 - yoe / 100) in
  let mp := (5 * doy + 2) / 153 in
  let d := doy - (153 * mp + 2) / 5 + 1 in
  let m := if mp <? 10 then mp + 3 else mp - 9 in
  let y := yoe + era * 400 in
  (if m <=? 2 then y + 1 else y, m, d).

Fixpoint zeros (n : nat) : string :=
  match n with
  | O => EmptyString
  | S k => "0" +:+ zeros k
  end.

(** [n] in decimal, padded with zeros to [width] digits. *)
Definition pad (width : nat) (n : Z) : string :=
  let s := str_of_Z n in
  zeros (width - String.length s) +:+ s.

Definition isoformat (t : datetime) : string :=
  let '(y, m, d) := civil_from_days (t / usec_per_day) in
  let r := t mod usec_per_day in
  let us := r mod 1000000 in
  let secs := r / 1000000 in
  pad 4 y +:+ "-" +:+ pad 2 m +:+ "-" +:+ pad 2 d +:+ "T"
  +:+ pad 2 (secs / 3600) +:+ ":" +:+ pad 2 (secs / 60 mod 60) +:+ ":"
  +:+ pad 2 (secs mod 60)
  +:+ (if us =? 0 then EmptyString else "." +:+ pad 6 us).

(** The number written by [len] digits of [s] from position [pos]. *)
Definition field (s : string) (pos len : nat) : option Z :=
  let cs := chars (String.substring pos len s) in
  if (length cs =? len)%nat && forallb is_digit cs
  then Some (fst (read_digits 0 cs)) else None.

Definition char_at (s : string) (pos : nat) (c : ascii) : bool :=
  match String.get pos s with
  | Some c' => Ascii.eqb c c'
  | None => false
  end.

Definition invalid_iso (s : string) : exn :=
  PyError "ValueError" ("Invalid isoformat string: " +:+ s).

Definition in_range (lo hi n : Z) : bool := (lo <=? n) && (n <=? hi).

(** [datetime.fromisoformat] on the date alone, on date and time to the
    second, and on date and time with microseconds. *)
Definition fromisoformat (s : string) : result datetime :=
  let n := String.length s in
  match field s 0 4, field s 5 2, field s 8 2 with
  | Some y, Some m, Some d =>
      if char_at s 4 "-" && char_at s 7 "-" && in_range 1 9999 y
         && in_range 1 12 m && (1 <=? d)
         && (days_from_civil y m d <? days_from_civil (y + m / 12) (m mod 12 + 1) 1)
      then
        let day := days_from_civil y m d * usec_per_day in
        if (n =? 10)%nat then inr day
        else
          match field s 11 2, field s 14 2, field s 17 2 with
          | Some h, Some mi, Some sec =>
              if char_at s 13 ":" && char_at s 16 ":" && in_range 0 23 h
                 && in_range 0 59 mi && in_range 0 59 sec
              then
                let t := day + ((h * 60 + mi) * 60 + sec) * 1000000 in
                if (n =? 19)%nat then inr t
                else
                  match field s 20 6 with
                  | Some us =>
                      if char_at s 19 "." && (n =? 26)%nat then inr (t + us)
                      else inl (invalid_iso s)
                  | None => inl (invalid_iso s)
                  end
              else inl (invalid_iso s)
          | _, _, _ => inl (invalid_iso s)
          end
      else inl (invalid_iso s)
  | _, _, _ => inl (invalid_iso s)
  end.

(** ** pydantic *)

Definition type_name (v : json) : string :=
  match v with
  | JNull => "NoneType"
  | JBool _ => "bool"
  | JNum _ => "int"
  | JStr _ => "str"
  | JArr _ => "list"
  | JObj _ => "dict"
  end.

Definition newline : string := String (chr 10) EmptyString.

(** [str(e)] of the [ValidationError] of a [str] field, as pydantic 2.5
    writes it. *)
Definition validation_error_str (model field : string) (v : json) : string :=
  "1 validation error for " +:+ model +:+ newline +:+ field +:+ newline
  +:+ "  Input should be a valid string [type=string_type, input_value="
  +:+ py_repr v +:+ ", input_type=" +:+ type_name v +:+ "]" +:+ newline
  +:+ "    For further information visit "
  +:+ "https://errors.pydantic.dev/2.5/v/string_type".

(** The reference library. *)
Definition lib : PyLib :=
  {| Py.py_repr := py_repr;
     Py.http_exception_str := http_exception_str;
     Py.json_dumps := json_dumps;
     Py.json_loads := json_loads;
     Py.b64encode := b64encode;
     Py.b64decode := b64decode;
     Py.bytes_decode := bytes_decode;
     Py.isoformat := isoformat;
     Py.fromisoformat := fromisoformat;
     Py.validation_error_str := validation_error_str |}.

End Ref.

(* ===================================================================== *)
(** * Worlds to run the program in *)
(* ===================================================================== *)

Module Scenario.

Import Login.

Definition config_url : string := "https://proj.supabase.co".
Definition config_key : string := "anon-key".

(** A fresh login process: nobody signed in, no session file. *)
Definition fresh : state :=
  {| auth := new_auth_manager config_url config_key;
     session_data := JObj [];
     session_file := {| content := None; read_only := false |};
     status_label := (EmptyString, false);
     sent := [] |}.

Definition reply (status : Z) (body : json) : result response :=
  inr {| status_code := status; text := Ref.json_dumps body; json_body := inr body |}.

Definition is_token_request (r : request) : bool :=
  String.eqb (url r) (config_url +:+ "/auth/v1/token?grant_type=password").

Definition is_users_request (r : request) : bool :=
  String.eqb (url r) (config_url +:+ "/rest/v1/Users").

Definition timed_out : result response :=
  inl (PyError "ConnectTimeout" "HTTPSConnectionPool: Read timed out.").

(** The identity service knows the account. *)
Definition net_remote_ok : network := fun r =>
  if is_token_request r then
    reply 200 (JObj [("access_token", JStr "jwt-abc");
                     ("user", JObj [("id", JStr "u-1"); ("email", JStr "a@b.com")])])
  else if is_users_request r then reply 200 (JArr [])
  else reply 200 JNull.

(** The identity service rejects the credentials; the Users table has one
    row for the email, with the given stored secret. *)
Definition net_table (stored : json) : network := fun r =>
  if is_token_request r then
    reply 400 (JObj [("error_description", JStr "Invalid login credentials")])
  else if is_users_request r then
    reply 200 (JArr [JObj [("id", JNum 7); ("email", JStr "a@b.com");
                           ("password", stored)]])
  else reply 200 JNull.

(** The identity service times out; the Users table has the account. *)
Definition net_timeout_then_table : network := fun r =>
  if is_token_request r then timed_out
  else if is_users_request r then
    reply 200 (JArr [JObj [("id", JNum 7); ("email", JStr "a@b.com");
                           ("password", JStr "x")]])
  else reply 200 JNull.

(** The probes pass, then both strategies meet a dead backend. *)
Definition net_backend_down : network := fun r =>
  if is_token_request r then timed_out
  else if is_users_request r then timed_out
  else reply 200 JNull.

(** Both services answer and reject. *)
Definition net_unknown_user : network := fun r =>
  if is_token_request r then
    reply 400 (JObj [("error_description", JStr "Invalid login credentials")])
  else if is_users_request r then reply 200 (JArr [])
  else reply 200 JNull.

(** 2025-01-01T00:00:00, in microseconds. *)
Definition t0 : datetime := 1735689600000000.

(** ** The API server *)

Definition supabase : CertificateApi.SimpleSupabaseClient :=
  CertificateApi.new_client "https://proj.supabase.co/" "service-key".

Definition is_verify_request (r : request) : bool :=
  String.eqb (url r) "https://proj.supabase.co/auth/v1/user".

Definition is_certificates_query (r : request) : bool :=
  String.eqb (url r) "https://proj.supabase.co/rest/v1/certificates"
  && match meth r with GET => true | POST => false end.

(** The identity service knows only the token "good"; the certificate
    table has no row; uploads and inserts are accepted. *)
Definition api_net : network := fun r =>
  if is_verify_request r then
    match headers r !! "Authorization" with
    | Some "Bearer good" =>
        reply 200 (JObj [("id", JStr "u-1"); ("email", JStr "a@b.com")])
    | _ => reply 401 (JObj [("msg", JStr "invalid JWT")])
    end
  else if is_certificates_query r then reply 200 (JArr [])
  else reply 201 (JObj []).

Definition api_world : CertificateApi.world :=
  {| CertificateApi.net := api_net;
     CertificateApi.uuid4 := "3f2b8c1e-0d4a-4c57-9f3e-6a1b2c3d4e5f";
     CertificateApi.generate_pdf_certificate := fun _ _ _ => inr "%PDF-1.4";
     CertificateApi.now_record := t0;
     CertificateApi.now_reply := t0 |}.

Definition details0 : CertificateApi.SanitizationDetails :=
  {| CertificateApi.manufacturer := "Acme";
     CertificateApi.model := "Disk 9000/X";
     CertificateApi.serial_number := "SN-1";
     CertificateApi.property_number := None;
     CertificateApi.media_type := "flash memory";
     CertificateApi.media_source := "computer";
     CertificateApi.pre_sanitization_confidentiality := None;
     CertificateApi.sanitization_method := "purge";
     CertificateApi.sanitization_technique := "overwrite";
     CertificateApi.tool_used := "Obliterator 1.0";
     CertificateApi.verification_method := "sampling";
     CertificateApi.post_sanitization_confidentiality := None;
     CertificateApi.post_sanitization_destination := None |}.

End Scenario.

(* ===================================================================== *)
(** * Sentences of the specification, as worded *)
(* ===================================================================== *)

Module Stated.

Import Login.

Section WithLib.
Context (lib : PyLib).

(** An HTTP-layer error at REMOTE_AUTH surfaces as a connection error that
    carries a detail, and [sign_in] does not go on to query the Users table. *)
Definition connection_error_surfaces (net : network) (email password : string)
    (s : state) : Prop :=
  http_error_at_remote net email password s = true ->
  (∃ detail : string,
     fst (sign_in lib net email password s)
     = inr (failure (JStr ("Connection error: " +:+ detail)))) ∧
  users_request (auth s) email ∉ sent (snd (sign_in lib net email password s)).

(** The Users table answers with exactly one row for the email, and the
    stored secret of the row equals the provided one under plain equality. *)
Definition one_row_matches (net : network) (email password : string) (s : state)
    (row : list (string * json)) : Prop :=
  ∃ (resp : response) (stored : json),
    net (users_request (auth s) email) = inr resp ∧
    status_code resp = 200 ∧
    json_body resp = inr (JArr [JObj row]) ∧
    assoc "password" row = Some stored ∧
    str_eq password stored = true.

(** [sign_in] succeeds via TABLE_LOOKUP on [row], with a token of the form
    [table_auth_<id>]. *)
Definition signs_in_by_table (net : network) (email password : string) (s : state)
    (row : list (string * json)) : Prop :=
  let out := sign_in lib net email password s in
  fst out = inr (JObj [("success", JBool true);
                       ("data", JObj [("user", table_user lib (JObj row))]);
                       ("method", JStr "user_table")]) ∧
  access_token (auth (snd out))
  = JStr ("table_auth_" +:+ py_str lib (or_null (assoc "id" row))).

(** REMOTE_AUTH fails and one row matches: [sign_in] succeeds by the table. *)
Definition table_lookup_succeeds (net : network) (email password : string)
    (s : state) : Prop :=
  ∀ row : list (string * json),
    remote_fails lib net email password s = true ->
    one_row_matches net email password s row ->
    signs_in_by_table net email password s row.

(** A successful sign-in without "remember me" leaves the session file as
    it was. *)
Definition session_not_persisted (net : network) (now1 now2 : datetime)
    (email password : string) (s : state) : Prop :=
  ∀ (user : json) (s' : state),
    _perform_login lib net now1 now2 email password false s = (inr (Some user), s') ->
    content (session_file s') = content (session_file s).

End WithLib.

End Stated.

(* ===================================================================== *)
(** * login_system.py: configuration, the backend check, the login form
      and [LoginSystem] *)
(* ===================================================================== *)

Module Shell.

Import Login.

(** ** ConfigManager *)

(** The attributes [load_config] sets; the last three are set only when the
    configuration file is read. *)
Record ConfigManager : Type := {
  supabase_url : json;
  supabase_key : json;
  app_config : option json;
  security : option json;
  ui : option json;
}.

(** [os.getenv(name)]: [None] or a string. *)
Definition getenv (o : option string) : json :=
  match o with
  | Some v => JStr v
  | None => JNull
  end.

(** [a or b], with [b] a computation that may raise and that runs only when
    [a] is falsy. *)
Definition py_or (a : json) (b : result json) : result json :=
  if truthy a then inr a else b.

Definition is_file_not_found (e : exn) : bool :=
  match e with
  | PyError cls _ => String.eqb cls "FileNotFoundError"
  | HTTPException _ _ => false
  end.

(** What [ConfigManager.load_config] does once the file has been opened and
    parsed: the body of the [with] block. *)
Definition read_config (url key config : json) : result ConfigManager :=
  match py_or url (dict_get config "supabase_url" JNull) with
  | inl e => inl e
  | inr url' =>
      match py_or key (dict_get config "supabase_key" JNull) with
      | inl e => inl e
      | inr key' =>
          match dict_get config "app_config" (JObj []),
                dict_get config "security" (JObj []),
                dict_get config "ui" (JObj []) with
          | inr a, inr sec, inr u =>
              inr {| supabase_url := url'; supabase_key := key';
                     app_config := Some a; security := Some sec; ui := Some u |}
          | inl e, _, _ | _, inl e, _ | _, _, inl e => inl e
          end
      end
  end.

(** [ConfigManager.load_config]. [env_url] and [env_key] are the two
    environment variables; [config_file] is what opening and parsing
    [config.json] gives: the document, or the exception raised. *)
Definition load_config (env_url env_key : option string)
    (config_file : result json) : result ConfigManager :=
  let url := getenv env_url in
  let key := getenv env_key in
  let loaded :=
    if negb (truthy url) || negb (truthy key) then
      match config_file with
      | inr config => read_config url key config
      | inl e =>
          if is_file_not_found e
          then inl (PyError "ValueError" "Configuration not found")
          else inl e
      end
    else
      inr {| supabase_url := url; supabase_key := key;
             app_config := None; security := None; ui := None |} in
  match loaded with
  | inl e => inl e
  | inr cfg =>
      if negb (truthy (supabase_url cfg)) || negb (truthy (supabase_key cfg))
      then inl (PyError "ValueError" "Supabase URL and key must be provided")
      else inr cfg
  end.

(** ** NetworkChecker.check_supabase_connection *)

(** [s.split('/')[0]] *)
Fixpoint before_slash (s : string) : string :=
  match s with
  | EmptyString => EmptyString
  | String c s' =>
      if Ascii.eqb c "/" then EmptyString else String c (before_slash s')
  end.

(** [socket.gethostbyname]: the address, or the exception raised. *)
Definition resolver : Type := string -> result string.

Definition backend_request (url : string) (headers : gmap string string) : request :=
  {| meth := GET; url := url +:+ "/rest/v1/"; headers := headers;
     params := ∅; body := NoBody; timeout := Some 10 |}.

(** [NetworkChecker.check_supabase_connection] *)
Definition check_supabase_connection (dns : resolver) (net : network)
    (url : string) (headers : gmap string string) : M state bool :=
  try_except
    (let hostname := replace (replace url "https://" EmptyString)
                             "http://" EmptyString in
     let* _ip := lift (dns (before_slash hostname)) in
     let* response := http net (backend_request url headers) in
     ret (status_code response =? 200))
    (fun _ => ret false).

(** [AuthManager.test_connection] *)
Definition test_connection (dns : resolver) (net : network) : M state bool :=
  let* s := get in
  check_supabase_connection dns net (base_url (auth s)) (auth_headers (auth s)).

(** The [check] thread of [check_network_status]. Returns the text and the
    colour given to the connection label. *)
Definition check_network_status (dns : resolver) (net : network)
    : M state (string * string) :=
  let* internet_ok := check_internet_connection net in
  let* supabase_ok :=
    if internet_ok then test_connection dns net else ret false in
  if internet_ok && supabase_ok then
    ret ("Connected - Ready to authenticate", "#22c55e")
  else if internet_ok then
    ret ("Internet OK - Auth server issues", "#f59e0b")
  else
    ret ("No internet connection", "#ef4444").

(** ** FullscreenLoginWindow.handle_login *)

(** ["@" in s] *)
Fixpoint contains_at (s : string) : bool :=
  match s with
  | EmptyString => false
  | String c s' => Ascii.eqb c "@" || contains_at s'
  end.

Section WithLib.
Context (lib : PyLib).
(** [str.strip()], taken as given. *)
Context (strip : string -> string).

(** [handle_login], with the worker thread it starts run to its end.
    [email_text] and [password_text] are the contents of the two entries.
    Returns the user for whom [on_login_success] is scheduled. *)
Definition handle_login (net : network) (now1 now2 : datetime)
    (email_text password_text : string) (remember : bool)
    : M state (option json) :=
  let email := strip email_text in
  let password := password_text in
  if String.eqb email EmptyString || String.eqb password EmptyString then
    show_status "Please enter both email and password" true ;; ret None
  else if negb (contains_at email) then
    show_status "Please enter a valid email address" true ;; ret None
  else
    let* online := check_internet_connection net in
    if negb online then
      show_status "No internet connection. Check your network." true ;; ret None
    else
      show_status "Authenticating..." false ;;
      _perform_login lib net now1 now2 email password remember.

End WithLib.

(** ** LoginSystem *)

(** The fields of [LoginSystem] that change after construction. *)
Record LoginSystem : Type := {
  user_data : json;
  authenticated : bool;
}.

(** [LoginSystem.logout] *)
Definition logout : M state LoginSystem :=
  sign_out ;;
  clear_session ;;
  ret {| user_data := JNull; authenticated := false |}.

(** ** Conditions and readings used in the statements *)

(** An endpoint answers a probe with 200. *)
Definition answers_200 (net : network) (endpoint : string) : bool :=
  match net (probe_request endpoint) with
  | inr response => status_code response =? 200
  | inl _ => false
  end.

(** The endpoints up to and including the first that satisfies [hit]. *)
Fixpoint up_to_first (hit : string -> bool) (es : list string) : list string :=
  match es with
  | [] => []
  | e :: rest => if hit e then [e] else e :: up_to_first hit rest
  end.

(** The expiry instant [load_session] reads from the text of the file, or
    the exception it meets on the way. *)
Definition session_expiry (lib : PyLib) (txt : string) : result datetime :=
  match decode_text lib txt with
  | inl e => inl e
  | inr data =>
      match dict_get data "expires" (JStr "1970-01-01") with
      | inl e => inl e
      | inr exp => fromisoformat_val lib exp
      end
  end.

(** The state without session file and with an empty session in memory. *)
Definition cleared (s : state) : state :=
  set_session_data (JObj []) (set_content None s).

(** The name [check_supabase_connection] looks up for a URL. *)
Definition backend_host (url : string) : string :=
  before_slash (replace (replace url "https://" EmptyString)
                        "http://" EmptyString).

(** The backend answers the check of [check_supabase_connection] with 200. *)
Definition backend_answers (net : network) (url : string)
    (headers : gmap string string) : bool :=
  match net (backend_request url headers) with
  | inr response => status_code response =? 200
  | inl _ => false
  end.

(** One of the two environment variables is unset or empty. *)
Definition env_incomplete (env_url env_key : option string) : bool :=
  negb (truthy (getenv env_url)) || negb (truthy (getenv env_key)).

(** The file is malformed, or past the expiry instant it records. *)
Definition stale (lib : PyLib) (now : datetime) (txt : string) : bool :=
  match session_expiry lib txt with
  | inl _ => true
  | inr expires => now >? expires
  end.

(** [strip] for the examples: spaces, tabs and line ends at both ends. *)
Definition is_blank (c : ascii) : bool :=
  Ascii.eqb c " " || Ascii.eqb c "009" || Ascii.eqb c "010" || Ascii.eqb c "013".

Fixpoint lstrip (cs : list ascii) : list ascii :=
  match cs with
  | c :: rest => if is_blank c then lstrip rest else cs
  | [] => []
  end.

Definition ascii_strip (s : string) : string :=
  string_of_list_ascii
    (rev (lstrip (rev (lstrip (list_ascii_of_string s))))).

End Shell.

(* ===================================================================== *)
(** * certificate_api/main.py: readings used in the statements *)
(* ===================================================================== *)

Module Issuance.

Import CertificateApi.

(** [old] occurs somewhere in [s]. *)
Fixpoint occurs (old s : string) : bool :=
  String.prefix old s
  || match s with
     | String _ s' => occurs old s'
     | EmptyString => false
     end.

(** [c] is one of the characters of [s]. *)
Fixpoint has_char (c : ascii) (s : string) : bool :=
  match s with
  | EmptyString => false
  | String c' s' => Ascii.eqb c c' || has_char c s'
  end.

(** Every [c] of [s] turned into [d]. *)
Fixpoint map_char (c d : ascii) (s : string) : string :=
  match s with
  | EmptyString => EmptyString
  | String x s' => String (if Ascii.eqb x c then d else x) (map_char c d s')
  end.

Section WithLib.
Context (lib : PyLib) (supabase : SimpleSupabaseClient).

(** The name [generate_certificate] gives to the document. *)
Definition filename (user_id : json) (details : SanitizationDetails)
    (certificate_id : string) : string :=
  "cert_" +:+ py_str lib user_id +:+ "_"
  +:+ replace (replace (model details) " " "_") "/" "_" +:+ "_"
  +:+ certificate_id +:+ ".pdf".

(** The row [generate_certificate] inserts. *)
Definition certificate_row (w : world) (user_id user_email : json)
    (details : SanitizationDetails) : json :=
  JObj [("certificate_id", JStr (uuid4 w));
        ("user_id", user_id);
        ("user_email", user_email);
        ("manufacturer", JStr (manufacturer details));
        ("model", JStr (model details));
        ("serial_number", JStr (serial_number details));
        ("property_number", opt_str (property_number details));
        ("media_type", JStr (media_type details));
        ("media_source", JStr (media_source details));
        ("pre_sanitization_confidentiality",
         opt_str (pre_sanitization_confidentiality details));
        ("sanitization_method", JStr (sanitization_method details));
        ("sanitization_technique", JStr (sanitization_technique details));
        ("tool_used", JStr (tool_used details));
        ("verification_method", JStr (verification_method details));
        ("post_sanitization_confidentiality",
         opt_str (post_sanitization_confidentiality details));
        ("post_sanitization_destination",
         opt_str (post_sanitization_destination details));
        ("pdf_url",
         JStr (get_public_url supabase "certificates"
                 (filename user_id details (uuid4 w))));
        ("created_at", JStr (isoformat lib (now_record w)))].

(** The world accepts a POST: it answers, with 200 or 201. *)
Definition accepted (w : world) (r : request) : bool :=
  match net w r with
  | inr response => ok_status (status_code response)
  | inl _ => false
  end.

(** The identifier of the verified user of a request, if there is one:
    [user_info["id"]] after the first lines of a handler. *)
Definition verified_id (w : world) (authorization : option string)
    (log : list request) : option json :=
  match fst (authenticate supabase w authorization log) with
  | inr user_info =>
      match subscript user_info "id" with
      | inr uid => Some uid
      | inl _ => None
      end
  | inl _ => None
  end.

End WithLib.

End Issuance.

(* ===================================================================== *)
(** * More worlds to run the program in *)
(* ===================================================================== *)

Module Cases.

Import Login Shell Scenario.

(** No probe gets through. *)
Definition net_offline : network := fun _ => timed_out.

(** The identity service rejects the credentials; the Users table holds two
    rows for the email, and only the second has the secret "x". *)
Definition first_row : list (string * json) :=
  [("id", JNum 7); ("email", JStr "a@b.com"); ("password", JStr "old")].

Definition second_row : json :=
  JObj [("id", JNum 8); ("email", JStr "a@b.com"); ("password", JStr "x")].

Definition two_rows : response :=
  {| status_code := 200; text := "[...]";
     json_body := inr (JArr [JObj first_row; second_row]) |}.

Definition net_two_rows : network := fun r =>
  if is_token_request r then
    reply 400 (JObj [("error_description", JStr "Invalid login credentials")])
  else if is_users_request r then inr two_rows
  else reply 200 JNull.

(** A login process whose session file cannot be written or removed. *)
Definition locked (txt : string) : state :=
  {| auth := auth fresh;
     session_data := JObj [("user", JStr "u-1")];
     session_file := {| content := Some txt; read_only := true |};
     status_label := status_label fresh;
     sent := [] |}.

(** A login process that finds a session file with the given text. *)
Definition holding (txt : string) : state :=
  {| auth := auth fresh;
     session_data := JObj [];
     session_file := {| content := Some txt; read_only := false |};
     status_label := status_label fresh;
     sent := [] |}.

(** A login process after the session of "u-1" was saved at [t0], with
    "remember me" set. *)
Definition remembered : state :=
  snd (save_session Ref.lib t0 t0 (JStr "u-1") true fresh).

(** The document of a configuration file. *)
Definition config_document : json :=
  JObj [("supabase_url", JStr "https://file.supabase.co");
        ("supabase_key", JStr "file-key");
        ("ui", JObj [("theme", JStr "dark")])].

Definition no_config_file : result json :=
  inl (PyError "FileNotFoundError" "config.json").

(** The API server with a storage service that refuses uploads, and with a
    database that refuses inserts. *)
Definition is_upload (r : request) : bool :=
  String.prefix "https://proj.supabase.co/storage/v1/object/" (url r).

Definition is_insert (r : request) : bool :=
  String.eqb (url r) "https://proj.supabase.co/rest/v1/certificates"
  && match meth r with POST => true | GET => false end.

Definition refusing (refused : request -> bool) : CertificateApi.world :=
  {| CertificateApi.net := fun r =>
       if refused r then reply 503 (JObj [("message", JStr "unavailable")])
       else api_net r;
     CertificateApi.uuid4 := CertificateApi.uuid4 api_world;
     CertificateApi.generate_pdf_certificate :=
       CertificateApi.generate_pdf_certificate api_world;
     CertificateApi.now_record := t0;
     CertificateApi.now_reply := t0 |}.

(** The verified user of the examples, and the log after verification. *)
Definition good_user : json :=
  JObj [("id", JStr "u-1"); ("email", JStr "a@b.com")].

Definition verified_log : list request :=
  [CertificateApi.verify_request supabase "good"].

(** The certificate table holds two rows. *)
Definition two_certificates : json :=
  JArr [JObj [("certificate_id", JStr "c-1"); ("manufacturer", JStr "Acme")];
        JObj [("certificate_id", JStr "c-2"); ("manufacturer", JStr "Bolt")]].

Definition api_world_two : CertificateApi.world :=
  {| CertificateApi.net := fun r =>
       if is_certificates_query r then reply 200 two_certificates
       else api_net r;
     CertificateApi.uuid4 := CertificateApi.uuid4 api_world;
     CertificateApi.generate_pdf_certificate :=
       CertificateApi.generate_pdf_certificate api_world;
     CertificateApi.now_record := t0;
     CertificateApi.now_reply := t0 |}.

(** The identity service grants the credentials, without a "user" field. *)
Definition net_grant_without_user : network := fun r =>
  if is_token_request r then reply 200 (JObj [("access_token", JStr "jwt-abc")])
  else reply 200 JNull.

End Cases.

(* ===================================================================== *)
(** * Facts about the login system *)
(* ===================================================================== *)

Module LoginFacts.

Import Login Shell.

(** Unfold the monad's operations at the head of a goal. *)
Ltac run := cbv [bind ret raise try_except lift get modify Login.http].

Section WithLib.
Context (lib : PyLib).

Lemma log_requests_nil s : log_requests [] s = s.
Proof. destruct s. unfold log_requests. simpl. by rewrite app_nil_r. Qed.

Lemma log_requests_app rs1 rs2 s :
  log_requests rs2 (log_requests rs1 s) = log_requests (rs1 ++ rs2) s.
Proof. unfold log_requests. simpl. by rewrite app_assoc. Qed.

Lemma log_request_one r s : log_request r s = log_requests [r] s.
Proof. reflexivity. Qed.

(** The probing loop never raises; it sends probes to a prefix of the
    endpoints and nothing else. *)
Lemma probe_spec net es s :
  ∃ (b : bool) (n : nat),
    probe net es s = (inr b, log_requests (map probe_request (take n es)) s).
Proof.
  revert s. induction es as [|e es IH]; intros s.
  - exists false, 0%nat. simpl. run. by rewrite log_requests_nil.
  - simpl. run.
    destruct (net (probe_request e)) as [err|resp].
    + destruct (IH (log_request (probe_request e) s)) as (b & n & ->).
      exists b, (S n). by rewrite log_request_one, log_requests_app.
    + destruct (status_code resp =? 200).
      * by exists true, 1%nat.
      * destruct (IH (log_request (probe_request e) s)) as (b & n & ->).
        exists b, (S n). by rewrite log_request_one, log_requests_app.
Qed.

Lemma check_internet_spec net s :
  ∃ (b : bool) (n : nat),
    check_internet_connection net s
    = (inr b, log_requests (map probe_request (take n endpoints)) s).
Proof.
  unfold check_internet_connection. run.
  destruct (probe_spec net endpoints s) as (b & n & ->). eauto.
Qed.

(** The probing loop stops at the first endpoint that answers 200. *)
Lemma probe_exact net es s :
  probe net es s
  = (inr (existsb (answers_200 net) es),
     log_requests (map probe_request (up_to_first (answers_200 net) es)) s).
Proof.
  revert s. induction es as [|e es IH]; intros s.
  - simpl. run. by rewrite log_requests_nil.
  - simpl. run. unfold answers_200 at 1 3.
    destruct (net (probe_request e)) as [err|resp].
    + rewrite IH. simpl. by rewrite log_request_one, log_requests_app.
    + destruct (status_code resp =? 200); [done|].
      rewrite IH. simpl. by rewrite log_request_one, log_requests_app.
Qed.

Lemma check_internet_exact net s :
  check_internet_connection net s
  = (inr (existsb (answers_200 net) endpoints),
     log_requests (map probe_request (up_to_first (answers_200 net) endpoints)) s).
Proof.
  unfold check_internet_connection. run. by rewrite probe_exact.
Qed.

(** REMOTE_AUTH never raises. It succeeds exactly on a grant, and then
    stores the token and the user of the grant; otherwise it only sent its
    request. *)
Lemma try_supabase_auth_spec net email password s :
  let req := token_request (auth s) email password in
  match remote_grant net req with
  | Some kv =>
      _try_supabase_auth lib net email password s
      = (inr (JObj [("success", JBool true); ("data", JObj kv);
                    ("method", JStr "supabase_auth")]),
         set_auth (fun a =>
           {| base_url := base_url a; auth_headers := auth_headers a;
              current_user := or_null (assoc "user" kv);
              access_token := or_null (assoc "access_token" kv) |})
           (log_request req s))
  | None =>
      ∃ err, _try_supabase_auth lib net email password s
             = (inr (failure err), log_request req s)
  end.
Proof.
  intros req. unfold remote_grant, _try_supabase_auth. run. fold req.
  destruct (net req) as [e|resp]; [eauto|].
  destruct (json_body resp) as [e|result] eqn:Hbody; simpl.
  { destruct (status_code resp =? 200); eauto. }
  destruct (status_code resp =? 200) eqn:Hst.
  - destruct result; simpl; eauto.
    unfold set_auth; simpl.
    destruct (assoc "access_token" fields), (assoc "user" fields); reflexivity.
  - destruct result; simpl; eauto.
    destruct (assoc "error_description" fields); eauto.
Qed.

(** TABLE_LOOKUP never raises. It succeeds exactly on a hit, and then
    stores the synthesized user and token; otherwise it only sent its
    request. *)
Lemma try_user_table_auth_spec net email password s :
  let req := users_request (auth s) email in
  match table_hit net req password with
  | Some row =>
      _try_user_table_auth lib net email password s
      = (inr (JObj [("success", JBool true);
                    ("data", JObj [("user", table_user lib row)]);
                    ("method", JStr "user_table")]),
         set_auth (fun a =>
           {| base_url := base_url a; auth_headers := auth_headers a;
              current_user := table_user lib row;
              access_token := table_token lib row |})
           (log_request req s))
  | None =>
      ∃ err, _try_user_table_auth lib net email password s
             = (inr (failure err), log_request req s)
  end.
Proof.
  intros req. unfold table_hit, _try_user_table_auth. run. fold req.
  destruct (net req) as [e|resp]; [eauto|].
  destruct (status_code resp =? 200) eqn:Hst; [|eauto].
  destruct (json_body resp) as [e|users] eqn:Hbody; simpl; [eauto|].
  destruct users as [| | | [|c u] |[|row rows]|[|f fs]]; simpl; eauto.
  destruct row as [| | | | |kv]; simpl; eauto.
  destruct (assoc "password" kv) as [stored|] eqn:Hpw; simpl; [|eauto].
  destruct (_verify_password password stored); simpl; [|eauto].
  unfold set_auth; simpl.
  destruct (assoc "id" kv), (assoc "email" kv), (assoc "created_at" kv);
    reflexivity.
Qed.

(** [sign_in] never raises, and its answer is decided stage by stage. *)
Lemma sign_in_stages net email password s :
  sign_in lib net email password s =
  if online net s then
    if stage_succeeds (remote_auth lib net email password s)
    then remote_auth lib net email password s
    else if stage_succeeds (table_lookup lib net email password s)
    then table_lookup lib net email password s
    else (inr (failure (JStr "Invalid email or password")),
          snd (table_lookup lib net email password s))
  else (inr (failure (JStr "No internet connection available")),
        snd (check_internet_connection net s)).
Proof.
  unfold sign_in, online, table_lookup, remote_auth.
  destruct (check_internet_spec net s) as (b & n & Hc).
  unfold bind at 1. rewrite Hc. simpl.
  destruct b; simpl; [|reflexivity].
  set (s1 := log_requests _ s).
  pose proof (try_supabase_auth_spec net email password s1) as H1.
  cbv zeta in H1.
  unfold try_except at 1. unfold bind at 1.
  destruct (remote_grant net _) as [kv|].
  { rewrite H1. reflexivity. }
  destruct H1 as (err & H1). rewrite H1. simpl.
  set (s2 := log_request _ s1).
  pose proof (try_user_table_auth_spec net email password s2) as H2.
  cbv zeta in H2. run. cbn [truthy]. cbv beta.
  destruct (table_hit net _ password) as [row|].
  { rewrite H2. reflexivity. }
  destruct H2 as (err2 & H2). rewrite H2. reflexivity.
Qed.

(** How the stages run once the connectivity check has passed. *)
Lemma stages_run net email password s :
  online net s = true ->
  ∃ n : nat,
    let s1 := log_requests (map probe_request (take n endpoints)) s in
    let req1 := token_request (auth s) email password in
    let req2 := users_request (auth s) email in
    check_internet_connection net s = (inr true, s1) ∧
    match remote_grant net req1 with
    | Some kv =>
        remote_auth lib net email password s
        = (inr (JObj [("success", JBool true); ("data", JObj kv);
                      ("method", JStr "supabase_auth")]),
           set_auth (fun a =>
             {| base_url := base_url a; auth_headers := auth_headers a;
                current_user := or_null (assoc "user" kv);
                access_token := or_null (assoc "access_token" kv) |})
             (log_request req1 s1))
    | None =>
        (∃ err, remote_auth lib net email password s
                = (inr (failure err), log_request req1 s1)) ∧
        match table_hit net req2 password with
        | Some row =>
            table_lookup lib net email password s
            = (inr (JObj [("success", JBool true);
                          ("data", JObj [("user", table_user lib row)]);
                          ("method", JStr "user_table")]),
               set_auth (fun a =>
                 {| base_url := base_url a; auth_headers := auth_headers a;
                    current_user := table_user lib row;
                    access_token := table_token lib row |})
                 (log_request req2 (log_request req1 s1)))
        | None =>
            ∃ err, table_lookup lib net email password s
                   = (inr (failure err), log_request req2 (log_request req1 s1))
        end
    end.
Proof.
  unfold online, table_lookup, remote_auth. intros Hon.
  destruct (check_internet_spec net s) as (b & n & Hc).
  rewrite Hc in Hon |- *. subst b. exists n. cbv zeta. split; [done|]. simpl.
  set (s1 := log_requests _ s).
  pose proof (try_supabase_auth_spec net email password s1) as H1.
  cbv zeta in H1. change (auth s1) with (auth s) in H1.
  destruct (remote_grant net _) as [kv|]; [done|].
  split; [done|]. destruct H1 as (err & ->). simpl.
  set (s2 := log_request _ s1).
  pose proof (try_user_table_auth_spec net email password s2) as H2.
  cbv zeta in H2. change (auth s2) with (auth s) in H2.
  exact H2.
Qed.

(** The answers [sign_in] can give. *)
Lemma sign_in_answers net email password s :
  let r := fst (sign_in lib net email password s) in
  r = inr (failure (JStr "No internet connection available")) ∨
  r = inr (failure (JStr "Invalid email or password")) ∨
  ∃ (data : json) (method : string),
    r = inr (JObj [("success", JBool true); ("data", data);
                   ("method", JStr method)]).
Proof.
  cbv zeta. rewrite sign_in_stages.
  destruct (online net s) eqn:Hon; [|by left].
  destruct (stages_run net email password s Hon) as (n & _ & Hrun).
  cbv zeta in Hrun.
  destruct (remote_grant net _) as [kv|].
  { rewrite Hrun. simpl. right. right. eauto. }
  destruct Hrun as [(err & ->) Htable]. simpl.
  destruct (table_hit net _ password) as [row|].
  - rewrite Htable. simpl. right. right. eauto.
  - destruct Htable as (err2 & ->). simpl. right. by left.
Qed.

End WithLib.

End LoginFacts.

(* ===================================================================== *)
(** * Sign-in: the fallback chain *)
(* ===================================================================== *)

Module SignIn.

Import Login LoginFacts Shell Scenario.

(** The probes and the token request are not the query of the Users table. *)
Lemma users_request_not_before a a' email email' password (n : nat) :
  users_request a email
  ∉ map probe_request (take n endpoints) ++ [token_request a' email' password].
Proof.
  intros [Hin | Hin%list_elem_of_singleton]%elem_of_app.
  - apply list_elem_of_In, in_map_iff in Hin as (e & Heq & _). discriminate Heq.
  - discriminate Hin.
Qed.

(** C7. In a run of [sign_in] in which an endpoint answers the connectivity
    probes, Strategy REMOTE_AUTH succeeds exactly when the identity service
    answers the token request with status 200 and a JSON object. Whenever it
    does, [sign_in] returns exactly that strategy's answer, which carries the
    object the service sent; the identity and the access token of that
    object are stored; and the only requests sent are the probes and the
    token request, so the Users table is never queried. *)
Theorem remote_auth_short_circuits lib net email password s :
  existsb (answers_200 net) endpoints = true ->
  let req := token_request (auth s) email password in
  let probes := map probe_request (up_to_first (answers_200 net) endpoints) in
  let out := sign_in lib net email password s in
  (remote_succeeds lib net email password s = true ↔
   ∃ kv, remote_grant net req = Some kv) ∧
  ∀ kv : list (string * json),
    remote_grant net req = Some kv ->
    out = remote_auth lib net email password s ∧
    fst out = inr (JObj [("success", JBool true); ("data", JObj kv);
                         ("method", JStr "supabase_auth")]) ∧
    current_user (auth (snd out)) = or_null (assoc "user" kv) ∧
    access_token (auth (snd out)) = or_null (assoc "access_token" kv) ∧
    sent (snd out) = sent s ++ probes ++ [req] ∧
    users_request (auth s) email ∉ probes ++ [req].
Proof.
  intros Hnet. cbv zeta.
  assert (online net s = true) as Hon.
  { unfold online. by rewrite check_internet_exact. }
  destruct (stages_run lib net email password s Hon) as (n & Hprobes & Hrun).
  cbv zeta in Hprobes, Hrun.
  assert (map probe_request (up_to_first (answers_200 net) endpoints)
          = map probe_request (take n endpoints)) as Hsame.
  { rewrite check_internet_exact in Hprobes.
    apply (f_equal (fun out => sent (snd out))) in Hprobes.
    cbn [snd sent log_requests] in Hprobes.
    by apply app_inv_head in Hprobes. }
  rewrite Hsame.
  unfold remote_succeeds. rewrite Hon. cbn [andb].
  destruct (remote_grant net _) as [kv|].
  - split.
    { rewrite Hrun. split; [eauto | reflexivity]. }
    intros kv' [= <-].
    rewrite sign_in_stages, Hon, Hrun. simpl.
    repeat split.
    + by rewrite <- app_assoc.
    + apply users_request_not_before.
  - destruct Hrun as [(err & Hfail) _]. split; [|discriminate].
    rewrite Hfail. simpl. split; [discriminate | intros [kv Hkv]; discriminate Hkv].
Qed.

Lemma remote_auth_short_circuits_witness :
  existsb (answers_200 net_remote_ok) endpoints = true ∧
  fst (sign_in Ref.lib net_remote_ok "a@b.com" "x" fresh)
  = inr (JObj [("success", JBool true);
               ("data",
                JObj [("access_token", JStr "jwt-abc");
                      ("user", JObj [("id", JStr "u-1"); ("email", JStr "a@b.com")])]);
               ("method", JStr "supabase_auth")]) ∧
  sent (snd (sign_in Ref.lib net_remote_ok "a@b.com" "x" fresh))
  = [probe_request "https://www.google.com";
     token_request (auth fresh) "a@b.com" "x"].
Proof.
  split; [reflexivity|].
  destruct (proj2 (remote_auth_short_circuits Ref.lib net_remote_ok "a@b.com" "x"
                     fresh eq_refl)
              [("access_token", JStr "jwt-abc");
               ("user", JObj [("id", JStr "u-1"); ("email", JStr "a@b.com")])]
              eq_refl) as (_ & Hanswer & _ & _ & Hsent & _).
  split; [exact Hanswer | exact Hsent].
Defined.

(** C8. In any two runs of [sign_in] in which both strategies fail, whatever
    the credentials, the worlds and the reason each stage failed for, the
    caller gets the same answer: the failure "Invalid email or password". *)
Theorem failed_sign_in_is_generic lib net1 net2 email1 password1 email2 password2
    s1 s2 :
  both_fail lib net1 email1 password1 s1 = true ->
  both_fail lib net2 email2 password2 s2 = true ->
  fst (sign_in lib net1 email1 password1 s1)
  = fst (sign_in lib net2 email2 password2 s2) ∧
  fst (sign_in lib net1 email1 password1 s1)
  = inr (failure (JStr "Invalid email or password")).
Proof.
  unfold both_fail, remote_fails.
  intros [[Hon1 Hr1%negb_true_iff]%andb_prop Ht1%negb_true_iff]%andb_prop
         [[Hon2 Hr2%negb_true_iff]%andb_prop Ht2%negb_true_iff]%andb_prop.
  rewrite !sign_in_stages, Hon1, Hr1, Ht1, Hon2, Hr2, Ht2. done.
Qed.

Lemma failed_sign_in_is_generic_witness :
  both_fail Ref.lib net_backend_down "a@b.com" "x" fresh = true ∧
  both_fail Ref.lib net_unknown_user "nobody@b.com" "y" fresh = true ∧
  fst (sign_in Ref.lib net_backend_down "a@b.com" "x" fresh)
  = fst (sign_in Ref.lib net_unknown_user "nobody@b.com" "y" fresh).
Proof.
  split; [reflexivity|]. split; [reflexivity|].
  apply (failed_sign_in_is_generic Ref.lib net_backend_down net_unknown_user
           "a@b.com" "x" "nobody@b.com" "y" fresh fresh); reflexivity.
Defined.

(** X13. The handler of [sign_in] for an exception of its own body is never
    reached: no answer of [sign_in] is a connection error. *)
Lemma sign_in_no_connection_error lib net email password s detail :
  fst (sign_in lib net email password s)
  ≠ inr (failure (JStr ("Connection error: " +:+ detail))).
Proof.
  destruct (sign_in_answers lib net email password s)
    as [-> | [-> | (data & method & ->)]]; discriminate.
Qed.

(** An HTTP-layer error is never a grant, nor a hit. *)
Lemma http_layer_error_no_grant net req :
  http_layer_error net req = true -> remote_grant net req = None.
Proof.
  unfold remote_grant, http_layer_error.
  destruct (net req) as [e|resp]; [done|].
  destruct (status_code resp =? 200) eqn:Hst; [|done].
  apply Z.eqb_eq in Hst. rewrite Hst. discriminate.
Qed.

Lemma http_layer_error_no_hit net req password :
  http_layer_error net req = true -> table_hit net req password = None.
Proof.
  unfold table_hit, http_layer_error.
  destruct (net req) as [e|resp]; [done|].
  destruct (status_code resp =? 200) eqn:Hst; [|done].
  apply Z.eqb_eq in Hst. rewrite Hst. discriminate.
Qed.

(** C4 at a timeout of the identity service: the probes pass, the token
    request times out, and [sign_in] neither surfaces a connection error nor
    stops: it goes on to the Users table and signs the user in. *)
Lemma connection_error_not_surfaced :
  ¬ Stated.connection_error_surfaces Ref.lib net_timeout_then_table "a@b.com" "x" fresh.
Proof.
  intros H. destruct (H eq_refl) as [[detail Hd] _].
  vm_compute in Hd. discriminate Hd.
Qed.

(** C4, as the code runs. [sign_in] has a handler that answers "Connection
    error: <detail>" without trying a further strategy, but no exception
    reaches it, each strategy turning every exception and every answer other
    than 200 into a failure of its own. So no answer of [sign_in] is a
    connection error. When the HTTP layer errors at REMOTE_AUTH (the call
    raises or the server answers 5xx), [sign_in] falls through to
    TABLE_LOOKUP: the Users table is queried, and the answer is TABLE_LOOKUP's
    success if it succeeds and "Invalid email or password" otherwise. When
    the HTTP layer errors at TABLE_LOOKUP, the answer is "Invalid email or
    password" as well, the detail of the error being dropped. *)
Theorem http_error_falls_through lib net email password s :
  let out := sign_in lib net email password s in
  (∀ detail : string,
     fst out ≠ inr (failure (JStr ("Connection error: " +:+ detail)))) ∧
  (http_error_at_remote net email password s = true ->
   remote_fails lib net email password s = true ∧
   users_request (auth s) email ∈ sent (snd out) ∧
   out = (if stage_succeeds (table_lookup lib net email password s)
          then table_lookup lib net email password s
          else (inr (failure (JStr "Invalid email or password")),
                snd (table_lookup lib net email password s)))) ∧
  (http_error_at_table lib net email password s = true ->
   fst out = inr (failure (JStr "Invalid email or password"))).
Proof.
  cbv zeta. split; [|split].
  - intros detail.
    destruct (sign_in_answers lib net email password s)
      as [-> | [-> | (data & method & ->)]]; discriminate.
  - intros [Hon Herr]%andb_prop.
    destruct (stages_run lib net email password s Hon) as (n & _ & Hrun).
    cbv zeta in Hrun.
    rewrite (http_layer_error_no_grant _ _ Herr) in Hrun.
    destruct Hrun as [(err & Hfail) Htable].
    assert (stage_succeeds (remote_auth lib net email password s) = false) as Hr.
    { by rewrite Hfail. }
    unfold remote_fails. rewrite sign_in_stages, Hon, Hr.
    split; [done|]. split; [|done].
    destruct (table_hit net _ password) as [row|].
    + rewrite Htable. simpl. rewrite !elem_of_app, !list_elem_of_singleton. auto.
    + destruct Htable as (err2 & ->). simpl.
      rewrite !elem_of_app, !list_elem_of_singleton. auto.
  - unfold http_error_at_table, remote_fails.
    intros [[Hon Hr%negb_true_iff]%andb_prop Herr]%andb_prop.
    destruct (stages_run lib net email password s Hon) as (n & _ & Hrun).
    cbv zeta in Hrun.
    destruct (remote_grant net _) as [kv|].
    { rewrite Hrun in Hr. discriminate Hr. }
    destruct Hrun as [_ Htable].
    rewrite (http_layer_error_no_hit _ _ password Herr) in Htable.
    destruct Htable as (err2 & Htable).
    rewrite sign_in_stages, Hon, Hr, Htable. done.
Qed.

Lemma http_error_falls_through_witness :
  (http_error_at_remote net_timeout_then_table "a@b.com" "x" fresh = true ∧
   users_request (auth fresh) "a@b.com"
   ∈ sent (snd (sign_in Ref.lib net_timeout_then_table "a@b.com" "x" fresh))) ∧
  (http_error_at_table Ref.lib net_backend_down "a@b.com" "x" fresh = true ∧
   fst (sign_in Ref.lib net_backend_down "a@b.com" "x" fresh)
   = inr (failure (JStr "Invalid email or password"))).
Proof.
  split; (split; [reflexivity|]).
  - apply (http_error_falls_through Ref.lib net_timeout_then_table "a@b.com" "x" fresh).
    reflexivity.
  - apply (http_error_falls_through Ref.lib net_backend_down "a@b.com" "x" fresh).
    reflexivity.
Defined.

(** C5, as worded, fails: with an empty stored secret and an empty provided
    secret the two are equal, but [_verify_password] rejects an empty stored
    secret and [sign_in] fails. *)
Lemma empty_secret_rejected :
  ¬ Stated.table_lookup_succeeds Ref.lib (net_table (JStr EmptyString))
      "a@b.com" EmptyString fresh.
Proof.
  intros H.
  destruct (H [("id", JNum 7); ("email", JStr "a@b.com");
               ("password", JStr EmptyString)]) as [Hout _];
    [reflexivity | | vm_compute in Hout; discriminate Hout].
  eexists _, (JStr EmptyString). repeat split; reflexivity.
Qed.

(** C5, amended. When REMOTE_AUTH fails and the Users table answers with
    exactly one row for the email whose stored secret is non-empty and equal
    to the provided secret under plain equality, [sign_in] succeeds via
    TABLE_LOOKUP: it returns the identity synthesized from the row, and the
    access token [table_auth_<id>]. *)
Theorem table_lookup_signs_in lib net email password s row :
  password ≠ EmptyString ->
  remote_fails lib net email password s = true ->
  Stated.one_row_matches net email password s row ->
  Stated.signs_in_by_table lib net email password s row.
Proof.
  intros Hne [Hon Hr%negb_true_iff]%andb_prop
         (resp & stored & Hnet & Hst & Hbody & Hpw & Heq).
  unfold Stated.signs_in_by_table. cbv zeta.
  destruct (stages_run lib net email password s Hon) as (n & _ & Hrun).
  cbv zeta in Hrun.
  destruct (remote_grant net _) as [kv|].
  { rewrite Hrun in Hr. discriminate Hr. }
  destruct Hrun as [_ Htable].
  assert (table_hit net (users_request (auth s) email) password = Some (JObj row))
    as Hh.
  { unfold table_hit. rewrite Hnet, Hst, Hbody, Hpw. simpl.
    destruct stored as [| | |secret| |]; try discriminate Heq. simpl in Heq.
    apply String.eqb_eq in Heq. subst secret.
    unfold _verify_password. simpl.
    destruct (String.eqb password EmptyString) eqn:He.
    - apply String.eqb_eq in He. contradiction.
    - simpl. by rewrite String.eqb_refl. }
  rewrite Hh in Htable.
  rewrite sign_in_stages, Hon, Hr, Htable. simpl. done.
Qed.

Lemma table_lookup_signs_in_witness :
  Stated.signs_in_by_table Ref.lib (net_table (JStr "x")) "a@b.com" "x" fresh
    [("id", JNum 7); ("email", JStr "a@b.com"); ("password", JStr "x")].
Proof.
  apply (table_lookup_signs_in Ref.lib (net_table (JStr "x")) "a@b.com" "x" fresh);
    [discriminate | reflexivity |].
  eexists _, (JStr "x"). repeat split; reflexivity.
Defined.

End SignIn.

(* ===================================================================== *)
(** * The session file *)
(* ===================================================================== *)

Module Session.

Import Login LoginFacts Scenario.

Section WithLib.
Context (lib : PyLib).

(** [sign_in] never raises and touches neither the session file nor the
    session held in memory. *)
Lemma sign_in_frame net email password s :
  ∃ (r : json) (s1 : state),
    sign_in lib net email password s = (inr r, s1) ∧
    session_file s1 = session_file s ∧
    session_data s1 = session_data s.
Proof.
  rewrite sign_in_stages.
  destruct (online net s) eqn:Hon.
  - destruct (stages_run lib net email password s Hon) as (n & _ & Hrun).
    cbv zeta in Hrun.
    destruct (remote_grant net _) as [kv|].
    { rewrite Hrun. simpl. eauto. }
    destruct Hrun as [(err & ->) Htable]. simpl.
    destruct (table_hit net _ password) as [row|].
    + rewrite Htable. simpl. eauto.
    + destruct Htable as (err2 & ->). simpl. eauto.
  - destruct (check_internet_spec net s) as (b & n & ->). simpl. eauto.
Qed.

(** On a writable disk [save_session] replaces the content of the file by
    the encoded record and keeps the record in memory. *)
Lemma save_session_writes now1 now2 user remember s :
  read_only (session_file s) = false ->
  save_session lib now1 now2 user remember s
  = (inr tt,
     set_session_data (session_info lib now1 now2 user remember)
       (set_content (Some (session_text lib (session_info lib now1 now2 user remember))) s)).
Proof.
  intros Hw. unfold save_session, write_file. run. by rewrite Hw.
Qed.

(** What [load_session] does with a file that decodes to a record whose
    "expires" field parses: the record is returned up to and including the
    expiry instant, and the file is removed strictly after it. *)
Lemma load_session_decoded now txt info exp_text (expires : datetime) s :
  content (session_file s) = Some txt ->
  read_only (session_file s) = false ->
  decode_text lib txt = inr (JObj info) ->
  assoc "expires" info = Some (JStr exp_text) ->
  fromisoformat lib exp_text = inr expires ->
  load_session lib now s
  = if now >? expires
    then (inr None, set_session_data (JObj []) (set_content None s))
    else (inr (Some (JObj info)), set_session_data (JObj info) s).
Proof.
  intros Hc Hw Hdec Hexp Hiso.
  unfold load_session, path_exists, read_file, decode_text in *. run.
  rewrite Hc. cbv iota beta. rewrite Hc. cbv iota beta.
  destruct (b64decode lib txt) as [e|raw]; [discriminate Hdec|].
  destruct (bytes_decode lib raw) as [e|dec]; [discriminate Hdec|].
  rewrite Hdec. simpl. rewrite Hexp. simpl. rewrite Hiso.
  destruct (now >? expires); [|reflexivity].
  unfold clear_session, path_exists, remove_file. run.
  repeat (progress (rewrite ?Hc, ?Hw; simpl)). reflexivity.
Qed.

(** Saving then loading: the saved record comes back at every instant up to
    and including [now2 + 24h], and strictly later the file is removed. *)
Lemma load_saved_session now1 now2 query user remember s :
  let info := session_info lib now1 now2 user remember in
  read_only (session_file s) = false ->
  decode_text lib (session_text lib info) = inr info ->
  fromisoformat lib (isoformat lib (now2 + hours 24)) = inr (now2 + hours 24) ->
  let saved := snd (save_session lib now1 now2 user remember s) in
  load_session lib query saved
  = if query >? now2 + hours 24
    then (inr None, set_session_data (JObj []) (set_content None saved))
    else (inr (Some info), saved).
Proof.
  intros info Hw Hdec Hiso saved.
  subst saved. rewrite save_session_writes by done. fold info. simpl.
  erewrite load_session_decoded; [| reflexivity | exact Hw | exact Hdec
                                   | reflexivity | exact Hiso].
  destruct (query >? now2 + hours 24); reflexivity.
Qed.

(** [_handle_login_result] on a success: the session is saved whatever the
    "remember me" box says. *)
Lemma perform_login_saves net now1 now2 email password remember s user s' :
  _perform_login lib net now1 now2 email password remember s = (inr (Some user), s') ->
  ∃ s1 : state,
    session_file s1 = session_file s ∧
    s' = set_status "Login successful!" false
           (snd (save_session lib now1 now2 user remember s1)).
Proof.
  unfold _perform_login.
  destruct (sign_in_frame net email password s) as (r & s1 & Hs & Hf & _).
  unfold bind at 1. rewrite Hs.
  unfold _handle_login_result, show_status. run.
  destruct (subscript r "success") as [e|ok]; [discriminate|].
  destruct (truthy ok).
  - destruct (subscript r "data") as [e|data]; [discriminate|].
    destruct (subscript data "user") as [e|user_data]; [discriminate|].
    destruct (save_session lib now1 now2 user_data remember s1) as [[e|[]] s2] eqn:Hsave;
      [discriminate|].
    intros [= <- <-]. exists s1. rewrite Hsave. done.
  - destruct (subscript r "error"); discriminate.
Qed.

(** [clear_session] and [is_valid_session] never raise. *)
Lemma clear_session_total s : ∃ s', clear_session s = (inr tt, s').
Proof.
  unfold clear_session, path_exists, remove_file. run.
  destruct s as [a d [[txt|] []] st rs]; simpl; eauto.
Qed.

Lemma is_valid_session_total now s :
  ∃ b : bool, is_valid_session lib now s = (inr b, s).
Proof.
  unfold is_valid_session. run.
  destruct (truthy (session_data s)); simpl; [|eauto].
  destruct (dict_get _ _ _) as [e|exp]; [eauto|].
  destruct (fromisoformat_val lib exp); eauto.
Qed.

(** A file that decodes to an object is either dropped or returned as is. *)
Lemma load_session_outcomes now txt info s :
  content (session_file s) = Some txt ->
  decode_text lib txt = inr (JObj info) ->
  (∃ s', load_session lib now s = (inr None, s')) ∨
  load_session lib now s
  = (inr (Some (JObj info)), set_session_data (JObj info) s).
Proof.
  intros Hc Hdec.
  unfold load_session, path_exists, read_file, decode_text in *. run.
  rewrite Hc. cbv iota beta. rewrite Hc. cbv iota beta.
  destruct (b64decode lib txt) as [e|raw]; [discriminate Hdec|].
  destruct (bytes_decode lib raw) as [e|dec]; [discriminate Hdec|].
  rewrite Hdec. cbv iota beta.
  destruct (dict_get (JObj info) "expires" _) as [e|exp].
  { destruct (clear_session_total (set_session_data (JObj info) s)) as (s' & ->).
    eauto. }
  destruct (fromisoformat_val lib exp) as [e|expires].
  { destruct (clear_session_total (set_session_data (JObj info) s)) as (s' & ->).
    eauto. }
  destruct (now >? expires); [|by right].
  destruct (clear_session_total (set_session_data (JObj info) s)) as (s' & ->).
  eauto.
Qed.

(** A session file whose record has "remember_me" false is never resumed. *)
Lemma unremembered_not_resumed now1 now2 txt info s :
  content (session_file s) = Some txt ->
  decode_text lib txt = inr (JObj info) ->
  assoc "remember_me" info = Some (JBool false) ->
  fst (check_existing_session lib now1 now2 s) = inr None.
Proof.
  intros Hc Hdec Hrm. unfold check_existing_session. unfold bind at 1.
  destruct (load_session_outcomes now1 txt info s Hc Hdec) as [(s' & ->) | ->];
    [reflexivity|].
  destruct (truthy (JObj info)); [|reflexivity]. cbn [negb]. unfold bind at 1.
  destruct (is_valid_session_total now2 (set_session_data (JObj info) s))
    as (b & ->).
  destruct b; [|reflexivity]. cbn [negb]. run. simpl. by rewrite Hrm.
Qed.

(** C3, amended. A successful sign-in with "remember me" off still writes
    the session record to the session file (when the file can be written),
    replacing whatever the file held; the record carries remember_me = false,
    and this flag is what keeps a later start from resuming the session. *)
Theorem unremembered_sign_in_writes_session net now1 now2 email password s user s' :
  _perform_login lib net now1 now2 email password false s = (inr (Some user), s') ->
  read_only (session_file s) = false ->
  let info := session_info lib now1 now2 user false in
  content (session_file s') = Some (session_text lib info) ∧
  session_data s' = info ∧
  (decode_text lib (session_text lib info) = inr info ->
   ∀ n1 n2 : datetime, fst (check_existing_session lib n1 n2 s') = inr None).
Proof.
  intros Hrun Hw info.
  destruct (perform_login_saves _ _ _ _ _ _ _ _ _ Hrun) as (s1 & Hf & ->).
  rewrite save_session_writes by (by rewrite Hf). fold info. simpl.
  repeat split.
  intros Hdec n1 n2.
  eapply unremembered_not_resumed; [reflexivity | exact Hdec | reflexivity].
Qed.

(** C6, at the expiry instant. A session saved at [now] and loaded exactly
    24 hours later is still returned by [load_session], and the session file
    is kept: [load_session] tests [now > expires], while [is_valid_session]
    tests [now < expires] and calls the same session invalid. *)
Theorem load_at_expiry_returns_session now user s :
  let info := session_info lib now now user true in
  read_only (session_file s) = false ->
  decode_text lib (session_text lib info) = inr info ->
  fromisoformat lib (isoformat lib (now + hours 24)) = inr (now + hours 24) ->
  let saved := snd (save_session lib now now user true s) in
  let out := load_session lib (now + hours 24) saved in
  fst out = inr (Some info) ∧
  content (session_file (snd out)) = Some (session_text lib info) ∧
  fst (is_valid_session lib (now + hours 24) (snd out)) = inr false.
Proof.
  intros info Hw Hdec Hiso saved out. subst out saved.
  rewrite load_saved_session by done. fold info.
  rewrite Z.gtb_ltb, Z.ltb_irrefl. cbn [fst snd].
  rewrite save_session_writes by done. fold info. cbn [snd].
  repeat split.
  unfold is_valid_session. run. simpl. rewrite Hiso. simpl.
  by rewrite Z.ltb_irrefl.
Qed.

End WithLib.

(** C3, as worded, fails: after a successful sign-in with "remember me" off,
    a session file exists where there was none. *)
Lemma unremembered_session_is_persisted :
  ¬ Stated.session_not_persisted Ref.lib net_remote_ok t0 t0 "a@b.com" "x" fresh.
Proof.
  intros H.
  pose (out := _perform_login Ref.lib net_remote_ok t0 t0 "a@b.com" "x" false fresh).
  assert (out = (inr (Some (JObj [("id", JStr "u-1"); ("email", JStr "a@b.com")])),
                 snd out)) as Hout by (vm_compute; reflexivity).
  specialize (H _ _ Hout). vm_compute in H. discriminate H.
Qed.

Lemma unremembered_sign_in_writes_session_witness :
  session_data
    (snd (_perform_login Ref.lib net_remote_ok t0 t0 "a@b.com" "x" false fresh))
  = session_info Ref.lib t0 t0
      (JObj [("id", JStr "u-1"); ("email", JStr "a@b.com")]) false.
Proof.
  apply (unremembered_sign_in_writes_session Ref.lib net_remote_ok t0 t0
           "a@b.com" "x" fresh
           (JObj [("id", JStr "u-1"); ("email", JStr "a@b.com")]));
    [vm_compute; reflexivity | reflexivity].
Defined.

Lemma load_at_expiry_returns_session_witness :
  fst (load_session Ref.lib (t0 + hours 24)
         (snd (save_session Ref.lib t0 t0 (JStr "u-1") true fresh)))
  = inr (Some (session_info Ref.lib t0 t0 (JStr "u-1") true)).
Proof.
  apply (load_at_expiry_returns_session Ref.lib t0 (JStr "u-1") fresh);
    [reflexivity | vm_compute; reflexivity | vm_compute; reflexivity].
Defined.

End Session.

(* ===================================================================== *)
(** * The certificate API *)
(* ===================================================================== *)

Module Api.

Import CertificateApi Scenario.

Ltac run := cbv [bind ret raise try_except lift get modify CertificateApi.http].

Section WithLib.
Context (lib : PyLib) (supabase : SimpleSupabaseClient).

(** An unauthorized request makes [authenticate] raise 401. *)
Lemma authenticate_unauthorized w authorization log :
  unauthorized supabase w authorization = true ->
  ∃ detail : string,
    (detail = missing_header ∨ detail = invalid_token) ∧
    fst (authenticate supabase w authorization log)
    = inl (HTTPException 401 detail).
Proof.
  unfold unauthorized, authenticate, verification_fails, verify_user. run.
  destruct authorization as [header|]; simpl.
  2:{ intros _. exists missing_header. eauto. }
  destruct (String.eqb header EmptyString) eqn:He.
  { apply String.eqb_eq in He. subst header. intros _.
    exists missing_header. simpl. eauto. }
  destruct (startswith header "Bearer "); simpl.
  2:{ intros _. exists missing_header. simpl. eauto. }
  destruct (net w _) as [e|resp]; [discriminate|].
  destruct (status_code resp =? 200); [discriminate|]. intros _.
  exists invalid_token. simpl. eauto.
Qed.

(** C1, as the code runs. A request to POST /generate-certificate whose
    Authorization header is missing, is not of Bearer shape, or carries a
    token that fails verification is answered with status 500, not 401: the
    401 raised inside the handler is caught by the handler's own
    [except Exception] and raised again as a 500. *)
Theorem unauthorized_request_answers_500 w details authorization log :
  unauthorized supabase w authorization = true ->
  let out := fst (generate_certificate lib supabase w details authorization log) in
  http_status out = 500 ∧
  ∃ detail : string,
    (detail = missing_header ∨ detail = invalid_token) ∧
    out = inl (HTTPException 500
                 ("Error generating certificate: "
                  +:+ http_exception_str lib 401 detail)).
Proof.
  intros Hun. cbv zeta.
  destruct (authenticate_unauthorized w authorization log Hun)
    as (detail & Hd & Hauth).
  assert (fst (generate_certificate lib supabase w details authorization log)
          = inl (HTTPException 500
                   ("Error generating certificate: "
                    +:+ http_exception_str lib 401 detail))) as Hout.
  { unfold generate_certificate. unfold try_except, bind at 1.
    destruct (authenticate supabase w authorization log) as [[e|v] log'];
      simpl in Hauth; [|discriminate Hauth].
    injection Hauth as ->. reflexivity. }
  rewrite Hout. split; [reflexivity|]. eauto.
Qed.

(** C2, as the code runs. When the token of the request fails verification,
    issuance fails having sent nothing but the verification request, so no
    document is uploaded and no row is inserted; but the failure reaches the
    caller as a 500, not as Unauthorized (401). *)
Theorem rejected_token_has_no_side_effect w details header log :
  startswith header "Bearer " = true ->
  verification_fails supabase w (replace header "Bearer " EmptyString) = true ->
  generate_certificate lib supabase w details (Some header) log
  = (inl (HTTPException 500
            ("Error generating certificate: "
             +:+ http_exception_str lib 401 invalid_token)),
     log ++ [verify_request supabase (replace header "Bearer " EmptyString)]).
Proof.
  intros Hb Hv.
  unfold generate_certificate, authenticate, verification_fails, verify_user in *.
  run. rewrite Hb.
  destruct (String.eqb header EmptyString) eqn:He.
  { apply String.eqb_eq in He. subst header. discriminate Hb. }
  simpl. destruct (net w _) as [e|resp]; [discriminate Hv|].
  destruct (status_code resp =? 200); [discriminate Hv|]. reflexivity.
Qed.

(** C9, as the code runs. For an authenticated caller and a database that
    answers with no row, GET /my-certificates succeeds with an empty list and
    count 0, but GET /certificates-by-device/{model} answers 500, not 404: the
    404 raised inside the handler is caught by the handler's own
    [except Exception] and raised again as a 500. *)
Theorem empty_device_list_answers_500 w model authorization limit offset log
    user_info uid log1 :
  authenticate supabase w authorization log = (inr user_info, log1) ->
  subscript user_info "id" = inr uid ->
  zero_rows w (select_request lib supabase "certificates"
                 (Some [("user_id", uid); ("model", JStr model)]) None None) = true ->
  zero_rows w (select_request lib supabase "certificates"
                 (Some [("user_id", uid)]) (Some limit) (Some offset)) = true ->
  fst (get_certificates_by_device lib supabase w model authorization log)
  = inl (HTTPException 500
           ("Error retrieving device certificates: "
            +:+ http_exception_str lib 404
                  ("No certificates found for device model: " +:+ model))) ∧
  http_status (fst (get_certificates_by_device lib supabase w model authorization log))
  = 500 ∧
  fst (get_my_certificates lib supabase w authorization limit offset log)
  = inr (JObj [("user_id", uid); ("certificates", JArr []); ("count", JNum 0)]).
Proof.
  intros Hauth Hid Hdev Hmine.
  assert (fst (get_certificates_by_device lib supabase w model authorization log)
          = inl (HTTPException 500
                   ("Error retrieving device certificates: "
                    +:+ http_exception_str lib 404
                          ("No certificates found for device model: " +:+ model))))
    as Hout.
  { clear Hmine.
    unfold get_certificates_by_device, select_records, zero_rows in *.
    unfold try_except, bind at 1. rewrite Hauth. run. rewrite Hid.
    destruct (net w _) as [e|resp]; [discriminate Hdev|].
    apply andb_prop in Hdev as [-> Hbody]. simpl.
    destruct (json_body resp) as [e|[| | | |[|]|]]; try discriminate Hbody.
    reflexivity. }
  rewrite Hout. repeat split. clear Hdev Hout.
  unfold get_my_certificates, select_records, zero_rows in *.
  unfold try_except, bind at 1. rewrite Hauth. run. rewrite Hid.
  destruct (net w _) as [e|resp]; [discriminate Hmine|].
  apply andb_prop in Hmine as [-> Hbody]. simpl.
  destruct (json_body resp) as [e|[| | | |[|]|]]; try discriminate Hbody.
  reflexivity.
Qed.

(** The requests an authenticated handler sends before its query carry no
    query parameter. *)
Lemma authenticate_log w authorization log :
  ∃ rs : list request,
    snd (authenticate supabase w authorization log) = log ++ rs ∧
    Forall (fun r => params r = ∅) rs.
Proof.
  unfold authenticate, verify_user. run.
  destruct authorization as [header|]; simpl.
  2:{ exists []. by rewrite app_nil_r. }
  destruct (String.eqb header EmptyString || negb (startswith header "Bearer ")).
  { exists []. by rewrite app_nil_r. }
  exists [verify_request supabase (replace header "Bearer " EmptyString)].
  split; [|by repeat constructor].
  destruct (net w _) as [e|resp]; [done|].
  destruct (status_code resp =? 200); [|done].
  destruct (json_body resp) as [e|v]; [done|]. simpl.
  by destruct (truthy v).
Qed.

(** What GET /my-certificates sends: the verification request, then at most
    its one query. *)
Lemma get_my_certificates_log w authorization limit offset log :
  ∃ rs : list request,
    snd (get_my_certificates lib supabase w authorization limit offset log)
    = log ++ rs ∧
    Forall (fun r =>
              params r = ∅ ∨
              ∃ uid, r = select_request lib supabase "certificates"
                           (Some [("user_id", uid)]) (Some limit) (Some offset))
           rs.
Proof.
  destruct (authenticate_log w authorization log) as (rs & Hlog & Hrs).
  assert (Forall (fun r =>
            params r = ∅ ∨
            ∃ uid, r = select_request lib supabase "certificates"
                         (Some [("user_id", uid)]) (Some limit) (Some offset)) rs)
    as Hrs'.
  { eapply Forall_impl; [exact Hrs|]. simpl. auto. }
  unfold get_my_certificates, select_records.
  unfold try_except, bind at 1.
  destruct (authenticate supabase w authorization log) as [[e|user_info] log1].
  { simpl in *. subst log1. eauto. }
  simpl in Hlog. subst log1. run.
  destruct (subscript user_info "id") as [e|uid]; [eauto|].
  set (q := select_request _ _ _ _ _ _).
  exists (rs ++ [q]). split.
  - rewrite app_assoc.
    destruct (net w q) as [e|resp]; [done|].
    destruct (status_code resp =? 200); simpl; [|done].
    destruct (json_body resp) as [e|data]; [done|].
    by destruct (py_len data).
  - apply Forall_app. split; [done|].
    constructor; [right; by exists uid | constructor].
Qed.

(** C10. [select_records] puts [limit] and [offset] among the query
    parameters only when they are truthy. So with [limit = 0] the query of
    GET /my-certificates is the query without limit (every request it sends
    lacks the "limit" parameter, and the database is asked for the unlimited
    result), and with [offset = 0] it is the query without offset. *)
Theorem zero_limit_or_offset_is_omitted w authorization (n : Z) :
  (∀ table filters offset,
     select_records lib supabase w table filters (Some 0) offset
     = select_records lib supabase w table filters None offset) ∧
  (∀ table filters limit,
     select_records lib supabase w table filters limit (Some 0)
     = select_records lib supabase w table filters limit None) ∧
  Forall (fun r => params r !! "limit" = None)
         (snd (get_my_certificates lib supabase w authorization 0 n [])) ∧
  Forall (fun r => params r !! "offset" = None)
         (snd (get_my_certificates lib supabase w authorization n 0 [])).
Proof.
  split; [reflexivity|]. split; [reflexivity|]. split.
  - destruct (get_my_certificates_log w authorization 0 n []) as (rs & -> & Hrs).
    simpl. eapply Forall_impl; [exact Hrs|]. simpl.
    intros r [-> | (uid & ->)]; [apply lookup_empty|].
    unfold select_request, select_params. simpl.
    destruct (n =? 0); simpl; by simplify_map_eq.
  - destruct (get_my_certificates_log w authorization n 0 []) as (rs & -> & Hrs).
    simpl. eapply Forall_impl; [exact Hrs|]. simpl.
    intros r [-> | (uid & ->)]; [apply lookup_empty|].
    unfold select_request, select_params. simpl.
    destruct (n =? 0); simpl; by simplify_map_eq.
Qed.

End WithLib.

Lemma unauthorized_request_answers_500_witness :
  unauthorized supabase api_world None = true ∧
  http_status
    (fst (generate_certificate Ref.lib supabase api_world details0 None [])) = 500.
Proof.
  split; [reflexivity|].
  apply (unauthorized_request_answers_500 Ref.lib supabase api_world details0 None []).
  reflexivity.
Defined.

Lemma rejected_token_has_no_side_effect_witness :
  generate_certificate Ref.lib supabase api_world details0 (Some "Bearer expired") []
  = (inl (HTTPException 500
            "Error generating certificate: 401: Invalid authentication token"),
     [verify_request supabase "expired"]).
Proof.
  apply (rejected_token_has_no_side_effect Ref.lib supabase api_world details0
           "Bearer expired" []); reflexivity.
Defined.

Lemma empty_device_list_answers_500_witness :
  http_status
    (fst (get_certificates_by_device Ref.lib supabase api_world "Disk 9000/X"
            (Some "Bearer good") [])) = 500.
Proof.
  apply (empty_device_list_answers_500 Ref.lib supabase api_world "Disk 9000/X"
           (Some "Bearer good") 10 0 []
           (JObj [("id", JStr "u-1"); ("email", JStr "a@b.com")]) (JStr "u-1")
           [verify_request supabase "good"]); reflexivity.
Defined.

End Api.

(* ===================================================================== *)
(** * More on the session file *)
(* ===================================================================== *)

Module SessionProps.

Import Login LoginFacts Shell Scenario Cases.

Section WithLib.
Context (lib : PyLib).

(** On a disk that accepts removals [clear_session] leaves no file and an
    empty session in memory. *)
Lemma clear_session_writable s :
  read_only (session_file s) = false ->
  clear_session s = (inr tt, cleared s).
Proof.
  unfold clear_session, path_exists, remove_file, cleared. run.
  destruct s as [a d [[txt|] ro] st rs]; simpl; intros ->; reflexivity.
Qed.

(** X1. Self-healing and expiry. When the session file cannot be decoded, does
    not hold an object, holds an expiry that is not an ISO date, or is
    past its expiry, [load_session] returns [None], removes the file and
    empties the session in memory. *)
Theorem load_session_drops_stale_file now txt s :
  content (session_file s) = Some txt ->
  read_only (session_file s) = false ->
  stale lib now txt = true ->
  load_session lib now s = (inr None, cleared s).
Proof.
  intros Hc Hw. unfold stale, session_expiry, decode_text.
  unfold load_session, path_exists, read_file. run.
  rewrite Hc. cbv iota beta. rewrite Hc. cbv iota beta.
  destruct (b64decode lib txt) as [e|raw].
  { intros _. rewrite clear_session_writable by done. reflexivity. }
  destruct (bytes_decode lib raw) as [e|dec].
  { intros _. rewrite clear_session_writable by done. reflexivity. }
  destruct (json_loads lib dec) as [e|data].
  { intros _. rewrite clear_session_writable by done. reflexivity. }
  destruct (dict_get data "expires" _) as [e|exp].
  { intros _. rewrite clear_session_writable by done. reflexivity. }
  destruct (fromisoformat_val lib exp) as [e|expires].
  { intros _. rewrite clear_session_writable by done. reflexivity. }
  intros ->. rewrite clear_session_writable by done. reflexivity.
Qed.


(** X3. Without a session file [load_session] returns [None] and changes
    nothing; after [clear_session] on a disk that accepts removals this is
    what a load finds, and clearing again changes nothing more. *)
Theorem clear_then_load now s :
  read_only (session_file s) = false ->
  clear_session s = (inr tt, cleared s) ∧
  load_session lib now (cleared s) = (inr None, cleared s) ∧
  clear_session (cleared s) = (inr tt, cleared s).
Proof.
  intros Hw. split; [by apply clear_session_writable|]. split.
  - reflexivity.
  - by rewrite clear_session_writable.
Qed.


Lemma clear_session_locked txt s :
  content (session_file s) = Some txt ->
  read_only (session_file s) = true ->
  clear_session s = (inr tt, s).
Proof.
  unfold clear_session, path_exists, remove_file. run.
  intros -> ->. reflexivity.
Qed.



(** X5. A logout that cannot remove the file. When the session file cannot be
    removed, [logout] raises nothing and forgets the current user and the
    token, but the session file stays and the session in memory is not
    emptied either, the reset coming after the removal. *)
Theorem logout_keeps_undeletable_file txt s :
  content (session_file s) = Some txt ->
  read_only (session_file s) = true ->
  let out := logout s in
  fst out = inr {| user_data := JNull; authenticated := false |} ∧
  current_user (auth (snd out)) = JNull ∧
  access_token (auth (snd out)) = JNull ∧
  session_file (snd out) = session_file s ∧
  session_data (snd out) = session_data s.
Proof.
  intros Hc Hro. cbv zeta. unfold logout, sign_out. run.
  rewrite (clear_session_locked txt) by done. done.
Qed.

(** X6. Round trip. What [save_session] writes, [load_session] reads back: up
    to and including the instant 24 hours after the save it returns the
    saved record and keeps the file; after that instant it returns [None]
    and removes the file. *)
Theorem save_then_load now1 now2 query user remember s :
  let info := session_info lib now1 now2 user remember in
  read_only (session_file s) = false ->
  decode_text lib (session_text lib info) = inr info ->
  fromisoformat lib (isoformat lib (now2 + hours 24)) = inr (now2 + hours 24) ->
  let saved := snd (save_session lib now1 now2 user remember s) in
  content (session_file saved) = Some (session_text lib info) ∧
  (query <= now2 + hours 24 ->
   load_session lib query saved = (inr (Some info), saved)) ∧
  (now2 + hours 24 < query ->
   load_session lib query saved = (inr None, cleared saved)).
Proof.
  intros info Hw Hdec Hiso saved.
  pose proof (Session.load_saved_session lib now1 now2 query user remember s
                Hw Hdec Hiso) as Hload.
  cbv zeta in Hload. fold info saved in Hload.
  split; [|split].
  - subst saved. rewrite Session.save_session_writes by done. reflexivity.
  - intros Hle. rewrite Hload.
    destruct (query >? now2 + hours 24) eqn:Hgt; [|done].
    apply Z.gtb_lt in Hgt. lia.
  - intros Hlt. rewrite Hload.
    destruct (query >? now2 + hours 24) eqn:Hgt; [done|].
    rewrite Z.gtb_ltb in Hgt. apply Z.ltb_ge in Hgt. lia.
Qed.

(** X7. Silent resume. After a save, [check_existing_session] resumes the
    saved user, and makes it the current user, exactly when "remember me"
    was set, the load happens no later than the expiry instant and the
    validity test strictly before it; otherwise nobody is resumed. *)
Theorem resume_after_save now1 now2 n1 n2 user remember s :
  let info := session_info lib now1 now2 user remember in
  let expires := now2 + hours 24 in
  read_only (session_file s) = false ->
  decode_text lib (session_text lib info) = inr info ->
  fromisoformat lib (isoformat lib expires) = inr expires ->
  let saved := snd (save_session lib now1 now2 user remember s) in
  let out := check_existing_session lib n1 n2 saved in
  if (n1 <=? expires) && (n2 <? expires) && remember
  then fst out = inr (Some user) ∧ current_user (auth (snd out)) = user
  else fst out = inr None.
Proof.
  intros info expires Hw Hdec Hiso saved out. subst out.
  pose proof (Session.load_saved_session lib now1 now2 n1 user remember s
                Hw Hdec Hiso) as Hload.
  cbv zeta in Hload. fold info saved expires in Hload.
  assert ((n1 >? expires) = negb (n1 <=? expires)) as Hgt.
  { rewrite Z.gtb_ltb. apply Z.ltb_antisym. }
  rewrite Hgt in Hload.
  assert (session_data saved = info) as Hmem.
  { subst saved. by rewrite Session.save_session_writes. }
  assert (∀ b : bool, (n2 <? expires) = b ->
            is_valid_session lib n2 saved = (inr b, saved)) as Hvalid.
  { intros b Hb. unfold is_valid_session. run. rewrite Hmem. simpl.
    fold expires. rewrite Hiso. simpl. by rewrite Hb. }
  assert (∃ s', check_existing_session lib n1 n2 saved
                = if (n1 <=? expires) && (n2 <? expires) && remember
                  then (inr (Some user),
                        set_auth (fun a =>
                          {| base_url := base_url a;
                             auth_headers := auth_headers a;
                             current_user := user;
                             access_token := access_token a |}) saved)
                  else (inr None, s')) as (s' & Hout).
  { unfold check_existing_session. unfold bind at 1. rewrite Hload.
    destruct (n1 <=? expires); cbn [negb andb]; [|eauto].
    cbn [truthy info session_info negb]. unfold bind at 1.
    rewrite (Hvalid (n2 <? expires)) by done.
    destruct (n2 <? expires); cbn [negb andb]; [|eauto]. run.
    subst info. destruct remember; simpl; eauto. }
  rewrite Hout.
  destruct ((n1 <=? expires) && (n2 <? expires) && remember); done.
Qed.

(** X8. Logout. On a disk that accepts removals, [logout] leaves no current
    user, no access token, no session file and no session in memory, and
    a later start resumes nobody. *)
Theorem logout_forgets n1 n2 s :
  read_only (session_file s) = false ->
  let out := logout s in
  fst out = inr {| user_data := JNull; authenticated := false |} ∧
  current_user (auth (snd out)) = JNull ∧
  access_token (auth (snd out)) = JNull ∧
  content (session_file (snd out)) = None ∧
  session_data (snd out) = JObj [] ∧
  fst (check_existing_session lib n1 n2 (snd out)) = inr None.
Proof.
  intros Hw. cbv zeta. unfold logout, sign_out. run.
  rewrite clear_session_writable by done. simpl. repeat split.
Qed.

End WithLib.

Lemma load_session_drops_stale_file_witness :
  load_session Ref.lib t0 (holding "not base64")
  = (inr None, cleared (holding "not base64")).
Proof.
  apply (load_session_drops_stale_file Ref.lib t0 "not base64" (holding "not base64"));
    [reflexivity | reflexivity | vm_compute; reflexivity].
Defined.


Lemma clear_then_load_witness :
  clear_session remembered = (inr tt, cleared remembered) ∧
  load_session Ref.lib t0 (cleared remembered) = (inr None, cleared remembered) ∧
  clear_session (cleared remembered) = (inr tt, cleared remembered).
Proof.
  apply (clear_then_load Ref.lib t0 remembered). reflexivity.
Defined.


Lemma logout_keeps_undeletable_file_witness :
  session_file (snd (logout (locked "old"))) = session_file (locked "old").
Proof.
  apply (logout_keeps_undeletable_file "old" (locked "old")); reflexivity.
Defined.

Lemma save_then_load_witness :
  load_session Ref.lib (t0 + hours 24) remembered
  = (inr (Some (session_info Ref.lib t0 t0 (JStr "u-1") true)), remembered) ∧
  load_session Ref.lib (t0 + hours 24 + 1) remembered
  = (inr None, cleared remembered).
Proof.
  split.
  - apply (save_then_load Ref.lib t0 t0 (t0 + hours 24) (JStr "u-1") true fresh);
      [reflexivity | vm_compute; reflexivity | vm_compute; reflexivity | lia].
  - apply (save_then_load Ref.lib t0 t0 (t0 + hours 24 + 1) (JStr "u-1") true fresh);
      [reflexivity | vm_compute; reflexivity | vm_compute; reflexivity | lia].
Defined.

Lemma resume_after_save_witness :
  fst (check_existing_session Ref.lib (t0 + hours 1) (t0 + hours 1) remembered)
  = inr (Some (JStr "u-1")).
Proof.
  assert (decode_text Ref.lib
            (session_text Ref.lib (session_info Ref.lib t0 t0 (JStr "u-1") true))
          = inr (session_info Ref.lib t0 t0 (JStr "u-1") true)) as Hdec
    by (vm_compute; reflexivity).
  assert (Ref.fromisoformat (Ref.isoformat (t0 + hours 24)) = inr (t0 + hours 24))
    as Hiso by (vm_compute; reflexivity).
  exact (proj1 (resume_after_save Ref.lib t0 t0 (t0 + hours 1) (t0 + hours 1)
                  (JStr "u-1") true fresh eq_refl Hdec Hiso)).
Defined.

Lemma logout_forgets_witness :
  content (session_file (snd (logout remembered))) = None ∧
  fst (check_existing_session Ref.lib t0 t0 (snd (logout remembered))) = inr None.
Proof.
  pose proof (logout_forgets Ref.lib t0 t0 remembered eq_refl) as H.
  cbv zeta in H. destruct H as (_ & _ & _ & Hfile & _ & Hresume).
  split; [exact Hfile | exact Hresume].
Defined.

End SessionProps.

(* ===================================================================== *)
(** * More on sign-in *)
(* ===================================================================== *)

Module SignInProps.

Import Login LoginFacts Shell Scenario Cases.

(** X9. First success wins. [check_internet_connection] never raises; it is
    true exactly when one of the three endpoints answers 200, and the probes
    it sends are the endpoints in order up to and including the first that
    does, the exceptions and other answers met before being absorbed. *)
Theorem check_internet_first_success net s :
  check_internet_connection net s
  = (inr (existsb (answers_200 net) endpoints),
     log_requests (map probe_request (up_to_first (answers_200 net) endpoints)) s).
Proof.
  unfold check_internet_connection. run. by rewrite probe_exact.
Qed.

Lemma up_to_first_none hit es :
  existsb hit es = false -> up_to_first hit es = es.
Proof.
  induction es as [|e es IH]; simpl; [done|].
  destruct (hit e); simpl; [done|]. intros H. by rewrite IH.
Qed.

(** X10. Offline. When no endpoint answers 200, [sign_in] answers "No internet
    connection available" having sent the three probes and nothing else:
    the credentials do not leave the machine and nothing but the log of
    requests changes. *)
Theorem sign_in_offline lib net email password s :
  existsb (answers_200 net) endpoints = false ->
  sign_in lib net email password s
  = (inr (failure (JStr "No internet connection available")),
     log_requests (map probe_request endpoints) s).
Proof.
  intros Hoff. unfold sign_in. unfold bind at 1.
  rewrite check_internet_exact, Hoff, up_to_first_none by done.
  reflexivity.
Qed.

Lemma sign_in_offline_witness :
  sign_in Ref.lib net_offline "a@b.com" "x" fresh
  = (inr (failure (JStr "No internet connection available")),
     log_requests (map probe_request endpoints) fresh).
Proof.
  apply (sign_in_offline Ref.lib net_offline "a@b.com" "x" fresh). reflexivity.
Defined.

(** X11. [sign_in] never raises, and changes nothing but the authentication
    manager and the log of requests: the session file, the session in memory
    and the status label are as before, and requests are only added. When
    the answer is a failure the authentication manager is unchanged too: no
    user and no token are stored. *)
Theorem sign_in_frame_and_failure lib net email password s :
  ∃ (r : json) (s' : state),
    sign_in lib net email password s = (inr r, s') ∧
    session_file s' = session_file s ∧
    session_data s' = session_data s ∧
    status_label s' = status_label s ∧
    (∃ rs, sent s' = sent s ++ rs) ∧
    (succeeded r = false -> auth s' = auth s).
Proof.
  rewrite sign_in_stages.
  destruct (online net s) eqn:Hon.
  - destruct (stages_run lib net email password s Hon) as (n & _ & Hrun).
    cbv zeta in Hrun.
    destruct (remote_grant net _) as [kv|].
    { rewrite Hrun. simpl. do 2 eexists. split; [reflexivity|]. simpl.
      repeat split; [|done]. rewrite <- app_assoc. eauto. }
    destruct Hrun as [(err & ->) Htable]. simpl.
    destruct (table_hit net _ password) as [row|].
    + rewrite Htable. simpl. do 2 eexists. split; [reflexivity|]. simpl.
      repeat split; [|done]. rewrite <- !app_assoc. eauto.
    + destruct Htable as (err2 & ->). simpl.
      do 2 eexists. split; [reflexivity|]. simpl.
      repeat split. rewrite <- !app_assoc. eauto.
  - destruct (check_internet_spec net s) as (b & n & ->). simpl.
    do 2 eexists. split; [reflexivity|]. simpl. repeat split. eauto.
Qed.

(** X12. TABLE_LOOKUP reads the first row only. When the Users table answers
    with several rows, the strategy succeeds exactly when the secret of the
    first row verifies, with the identity of that row; a later row with the
    right secret does not help, and the failure is "Invalid password". *)
Theorem table_lookup_reads_first_row lib net email password s resp kv rest :
  net (users_request (auth s) email) = inr resp ->
  status_code resp = 200 ->
  json_body resp = inr (JArr (JObj kv :: rest)) ->
  fst (_try_user_table_auth lib net email password s)
  = inr (if _verify_password password (or_null (assoc "password" kv))
         then JObj [("success", JBool true);
                    ("data", JObj [("user", table_user lib (JObj kv))]);
                    ("method", JStr "user_table")]
         else failure (JStr "Invalid password")).
Proof.
  intros Hnet Hst Hbody. unfold _try_user_table_auth. run.
  rewrite Hnet, Hst. simpl. rewrite Hbody. simpl.
  destruct (assoc "password" kv) as [stored|]; simpl; [|reflexivity].
  destruct (_verify_password password stored); simpl; [|reflexivity].
  destruct (assoc "id" kv), (assoc "email" kv), (assoc "created_at" kv);
    reflexivity.
Qed.

Lemma table_lookup_reads_first_row_witness :
  fst (_try_user_table_auth Ref.lib net_two_rows "a@b.com" "x" fresh)
  = inr (failure (JStr "Invalid password")).
Proof.
  exact (table_lookup_reads_first_row Ref.lib net_two_rows "a@b.com" "x" fresh
           two_rows first_row [second_row] eq_refl eq_refl eq_refl).
Defined.

End SignInProps.

(* ===================================================================== *)
(** * The login form, the backend check and the configuration *)
(* ===================================================================== *)

Module ShellProps.

Import Login LoginFacts Shell Scenario Cases.

Section WithLib.
Context (lib : PyLib) (strip : string -> string).

(** X14. Validation comes first. When the stripped email or the password is
    empty, and when the stripped email has no "@", [handle_login] only shows
    the matching message as an error: no request is sent, not even a probe,
    and nothing else changes. *)
Theorem handle_login_validates net now1 now2 email_text password_text remember s :
  let out := handle_login lib strip net now1 now2 email_text password_text
               remember s in
  (strip email_text = EmptyString ∨ password_text = EmptyString ->
   out = (inr None, set_status "Please enter both email and password" true s)) ∧
  (strip email_text ≠ EmptyString -> password_text ≠ EmptyString ->
   contains_at (strip email_text) = false ->
   out = (inr None, set_status "Please enter a valid email address" true s)).
Proof.
  cbv zeta. unfold handle_login, show_status. split.
  - intros [-> | ->]; simpl; [reflexivity|].
    by rewrite orb_true_r.
  - intros He Hp Hat.
    apply String.eqb_neq in He, Hp. rewrite He, Hp, Hat. reflexivity.
Qed.

(** X15. Offline. With well-formed input and no endpoint answering 200,
    [handle_login] shows "No internet connection. Check your network." and
    has sent the three probes only: the credentials do not leave the
    machine. *)
Theorem handle_login_offline net now1 now2 email_text password_text remember s :
  strip email_text ≠ EmptyString ->
  password_text ≠ EmptyString ->
  contains_at (strip email_text) = true ->
  existsb (answers_200 net) endpoints = false ->
  handle_login lib strip net now1 now2 email_text password_text remember s
  = (inr None,
     set_status "No internet connection. Check your network." true
       (log_requests (map probe_request endpoints) s)).
Proof.
  intros He Hp Hat Hoff. unfold handle_login, show_status.
  apply String.eqb_neq in He, Hp. rewrite He, Hp, Hat. cbn [orb negb].
  unfold bind at 1.
  rewrite check_internet_exact, Hoff.
  rewrite SignInProps.up_to_first_none by done. reflexivity.
Qed.

(** X16. A whole login. With well-formed input, a connected machine, an identity
    service that grants the credentials with a "user" field, and a session
    file that can be written, [handle_login] schedules the success of that
    user, stores the user and the token, writes the session record to the
    file, shows "Login successful!", and has sent the probes twice (once by
    the form, once by [sign_in]) and then the token request. *)
Theorem handle_login_signs_in net now1 now2 email_text password_text remember
    s kv user :
  strip email_text ≠ EmptyString ->
  password_text ≠ EmptyString ->
  contains_at (strip email_text) = true ->
  existsb (answers_200 net) endpoints = true ->
  remote_grant net (token_request (auth s) (strip email_text) password_text)
  = Some kv ->
  assoc "user" kv = Some user ->
  read_only (session_file s) = false ->
  let probes := map probe_request (up_to_first (answers_200 net) endpoints) in
  let info := session_info lib now1 now2 user remember in
  let out := handle_login lib strip net now1 now2 email_text password_text
               remember s in
  fst out = inr (Some user) ∧
  content (session_file (snd out)) = Some (session_text lib info) ∧
  session_data (snd out) = info ∧
  status_label (snd out) = ("Login successful!", false) ∧
  current_user (auth (snd out)) = user ∧
  access_token (auth (snd out)) = or_null (assoc "access_token" kv) ∧
  sent (snd out)
  = sent s ++ probes ++ probes
      ++ [token_request (auth s) (strip email_text) password_text].
Proof.
  intros He Hp Hat Hon Hgrant Huser Hw probes info out.
  assert (∃ s', out = (inr (Some user), s') ∧
            content (session_file s') = Some (session_text lib info) ∧
            session_data s' = info ∧
            status_label s' = ("Login successful!", false) ∧
            current_user (auth s') = user ∧
            access_token (auth s') = or_null (assoc "access_token" kv) ∧
            sent s' = sent s ++ probes ++ probes
                        ++ [token_request (auth s) (strip email_text) password_text])
    as (s' & -> & Hs'); [|exact (conj eq_refl Hs')].
  subst out. unfold handle_login, show_status.
  apply String.eqb_neq in He, Hp. rewrite He, Hp, Hat. cbn [orb negb].
  unfold bind at 1. rewrite check_internet_exact, Hon. cbn [negb].
  fold probes. unfold _perform_login, sign_in. run.
  rewrite check_internet_exact, Hon. cbn [negb]. fold probes.
  set (s1 := log_requests probes _).
  pose proof (try_supabase_auth_spec lib net (strip email_text) password_text s1)
    as H1.
  cbv zeta in H1. change (auth s1) with (auth s) in H1.
  rewrite Hgrant in H1. rewrite H1. simpl.
  unfold _handle_login_result, show_status. run. simpl. rewrite Huser.
  rewrite Session.save_session_writes by exact Hw. fold info.
  eexists. split; [reflexivity|]. simpl.
  rewrite <- !app_assoc. repeat split.
Qed.

(** X17. A grant without user. When the identity service answers 200 with an
    object that has no "user" field, [sign_in] succeeds and stores the token,
    but the hand-off raises [KeyError] on [result["data"]["user"]]: no
    session is saved and the status still reads "Authenticating...". *)
Theorem handle_login_grant_without_user net now1 now2 email_text password_text
    remember s kv :
  strip email_text ≠ EmptyString ->
  password_text ≠ EmptyString ->
  contains_at (strip email_text) = true ->
  existsb (answers_200 net) endpoints = true ->
  remote_grant net (token_request (auth s) (strip email_text) password_text)
  = Some kv ->
  assoc "user" kv = None ->
  let out := handle_login lib strip net now1 now2 email_text password_text
               remember s in
  fst out = inl (PyError "KeyError" "'user'") ∧
  access_token (auth (snd out)) = or_null (assoc "access_token" kv) ∧
  session_file (snd out) = session_file s ∧
  session_data (snd out) = session_data s ∧
  status_label (snd out) = ("Authenticating...", false).
Proof.
  intros He Hp Hat Hon Hgrant Huser out.
  assert (∃ s', out = (inl (PyError "KeyError" "'user'"), s') ∧
            access_token (auth s') = or_null (assoc "access_token" kv) ∧
            session_file s' = session_file s ∧
            session_data s' = session_data s ∧
            status_label s' = ("Authenticating...", false))
    as (s' & -> & Hs'); [|exact (conj eq_refl Hs')].
  subst out. unfold handle_login, show_status.
  apply String.eqb_neq in He, Hp. rewrite He, Hp, Hat. cbn [orb negb].
  unfold bind at 1. rewrite check_internet_exact, Hon. cbn [negb].
  unfold _perform_login, sign_in. run.
  rewrite check_internet_exact, Hon. cbn [negb].
  set (s1 := log_requests _ _).
  pose proof (try_supabase_auth_spec lib net (strip email_text) password_text s1)
    as H1.
  cbv zeta in H1. change (auth s1) with (auth s) in H1.
  rewrite Hgrant in H1. rewrite H1. simpl.
  unfold _handle_login_result, show_status. run. simpl. rewrite Huser.
  eexists. split; [reflexivity|]. simpl. repeat split.
Qed.

End WithLib.

Lemma handle_login_validates_witness :
  handle_login Ref.lib ascii_strip net_remote_ok t0 t0 "   " "x" false fresh
  = (inr None, set_status "Please enter both email and password" true fresh) ∧
  handle_login Ref.lib ascii_strip net_remote_ok t0 t0 " a.b.com " "x" false fresh
  = (inr None, set_status "Please enter a valid email address" true fresh).
Proof.
  split.
  - apply (handle_login_validates Ref.lib ascii_strip net_remote_ok t0 t0
             "   " "x" false fresh). by left.
  - apply (handle_login_validates Ref.lib ascii_strip net_remote_ok t0 t0
             " a.b.com " "x" false fresh); [discriminate | discriminate | reflexivity].
Defined.

Lemma handle_login_offline_witness :
  fst (handle_login Ref.lib ascii_strip net_offline t0 t0 "a@b.com" "x" false fresh)
  = inr None.
Proof.
  rewrite (handle_login_offline Ref.lib ascii_strip net_offline t0 t0
             "a@b.com" "x" false fresh);
    [reflexivity | discriminate | discriminate | reflexivity | reflexivity].
Defined.

Lemma handle_login_signs_in_witness :
  fst (handle_login Ref.lib ascii_strip net_remote_ok t0 t0 " a@b.com " "x" true fresh)
  = inr (Some (JObj [("id", JStr "u-1"); ("email", JStr "a@b.com")])).
Proof.
  eapply (handle_login_signs_in Ref.lib ascii_strip net_remote_ok t0 t0
            " a@b.com " "x" true fresh);
    [discriminate | discriminate | reflexivity | reflexivity
     | vm_compute; reflexivity | reflexivity | reflexivity].
Defined.

Lemma handle_login_grant_without_user_witness :
  fst (handle_login Ref.lib ascii_strip net_grant_without_user t0 t0
         "a@b.com" "x" true fresh)
  = inl (PyError "KeyError" "'user'").
Proof.
  eapply (handle_login_grant_without_user Ref.lib ascii_strip
            net_grant_without_user t0 t0 "a@b.com" "x" true fresh);
    [discriminate | discriminate | reflexivity | reflexivity
     | vm_compute; reflexivity | reflexivity].
Defined.

(** X18. The backend check. [check_supabase_connection] never raises. When the
    host of the URL does not resolve it answers [False] without sending the
    request; when it resolves, the request is sent and the answer is
    whether the backend answered 200, an exception of the request counting
    as no. *)
Theorem backend_check_resolves_first dns net url headers s :
  check_supabase_connection dns net url headers s
  = match dns (backend_host url) with
    | inl _ => (inr false, s)
    | inr _ => (inr (backend_answers net url headers),
                log_request (backend_request url headers) s)
    end.
Proof.
  unfold check_supabase_connection, backend_host, backend_answers. run.
  destruct (dns _) as [e|ip]; [reflexivity|].
  destruct (net _) as [e|resp]; reflexivity.
Qed.

(** X19. The connection label. [check_network_status] shows "No internet
    connection" when no endpoint answers 200, and then does not contact the
    backend; otherwise it shows "Connected - Ready to authenticate" when
    the backend host resolves and the backend answers 200, and "Internet OK
    - Auth server issues" when it does not. *)
Theorem network_label dns net s :
  let probes := map probe_request (up_to_first (answers_200 net) endpoints) in
  let url := base_url (auth s) in
  let headers := auth_headers (auth s) in
  check_network_status dns net s
  = if existsb (answers_200 net) endpoints then
      match dns (backend_host url) with
      | inr _ =>
          (inr (if backend_answers net url headers
                then ("Connected - Ready to authenticate", "#22c55e")
                else ("Internet OK - Auth server issues", "#f59e0b")),
           log_requests (probes ++ [backend_request url headers]) s)
      | inl _ => (inr ("Internet OK - Auth server issues", "#f59e0b"),
                  log_requests probes s)
      end
    else (inr ("No internet connection", "#ef4444"), log_requests probes s).
Proof.
  cbv zeta. unfold check_network_status, test_connection.
  unfold bind at 1. rewrite check_internet_exact.
  destruct (existsb (answers_200 net) endpoints); [|reflexivity].
  unfold check_supabase_connection, backend_host, backend_answers. run. simpl.
  destruct (dns _) as [e|ip]; [reflexivity|].
  rewrite log_request_one, log_requests_app.
  by destruct (net (backend_request _ _)) as [e|resp];
    [|destruct (status_code resp =? 200)].
Qed.

(** X20. The configuration that loads is complete, and the environment wins.
    Whenever [load_config] returns, the URL and the key are both non-empty;
    and an environment variable that is set and non-empty is the value
    used, whatever the file says. *)
Theorem load_config_complete env_url env_key config_file cfg :
  load_config env_url env_key config_file = inr cfg ->
  truthy (supabase_url cfg) = true ∧
  truthy (supabase_key cfg) = true ∧
  (∀ u, env_url = Some u -> u ≠ EmptyString -> supabase_url cfg = JStr u) ∧
  (∀ k, env_key = Some k -> k ≠ EmptyString -> supabase_key cfg = JStr k).
Proof.
  unfold load_config, read_config, py_or, getenv, dict_get. intros H.
  repeat split; [| |intros u -> Hu|intros k -> Hk];
    repeat (case_match; simplify_eq/=); try done;
    repeat match goal with
           | H : negb _ = false |- _ => apply negb_false_iff in H
           | H : negb _ = true |- _ => apply negb_true_iff in H
           | H : _ || _ = false |- _ => apply orb_false_elim in H as [? ?]
           | H : String.eqb _ _ = true |- _ => apply String.eqb_eq in H
           end; simplify_eq/=; try done.
  all: by apply negb_true_iff.
Qed.

(** X21. Configuration errors. When an environment variable is unset or empty:
    a missing file is reported as "Configuration not found"; any other
    exception of opening or parsing the file reaches the caller as it is;
    and a file that is an object but lacks the missing field is reported as
    "Supabase URL and key must be provided". *)
Theorem load_config_errors env_url env_key :
  env_incomplete env_url env_key = true ->
  (∀ e, load_config env_url env_key (inl e)
        = inl (if is_file_not_found e
               then PyError "ValueError" "Configuration not found" else e)) ∧
  (∀ kv,
     (truthy (getenv env_url) = false ∧ assoc "supabase_url" kv = None) ∨
     (truthy (getenv env_key) = false ∧ assoc "supabase_key" kv = None) ->
     load_config env_url env_key (inr (JObj kv))
     = inl (PyError "ValueError" "Supabase URL and key must be provided")).
Proof.
  unfold env_incomplete, load_config. intros ->. split.
  - intros e. by destruct (is_file_not_found e).
  - intros kv H. unfold read_config, py_or. simpl.
    destruct H as [[-> ->] | [-> ->]].
    + destruct (truthy (getenv env_key)); [|destruct (assoc "supabase_key" kv)];
        destruct (assoc "app_config" kv), (assoc "security" kv), (assoc "ui" kv);
        reflexivity.
    + destruct (truthy (getenv env_url)); [|destruct (assoc "supabase_url" kv)];
        destruct (assoc "app_config" kv), (assoc "security" kv), (assoc "ui" kv);
        simpl; rewrite ?orb_true_r; reflexivity.
Qed.

Lemma load_config_complete_witness :
  ∃ cfg,
    load_config (Some "https://env.supabase.co") None (inr config_document) = inr cfg ∧
    supabase_url cfg = JStr "https://env.supabase.co" ∧
    truthy (supabase_key cfg) = true.
Proof.
  eexists. split; [reflexivity|].
  pose proof (load_config_complete (Some "https://env.supabase.co") None
                (inr config_document) _ eq_refl) as (_ & Hkey & Hurl & _).
  split; [apply (Hurl _ eq_refl); discriminate | exact Hkey].
Defined.

Lemma load_config_errors_witness :
  load_config None (Some "env-key") no_config_file
  = inl (PyError "ValueError" "Configuration not found").
Proof.
  apply (load_config_errors None (Some "env-key")). reflexivity.
Defined.

End ShellProps.

(* ===================================================================== *)
(** * Facts about [replace] and [rstrip] *)
(* ===================================================================== *)

Module StringFacts.

Import Issuance CertificateApi.

Lemma prefix_app old t : String.prefix old (old +:+ t) = true.
Proof.
  induction old as [|c old IH]; simpl; [by destruct t|].
  by destruct (ascii_dec c c).
Qed.

(** Skipping over the rest of an occurrence. *)
Lemma replace_from_skip u old new t :
  replace_from (String.length u) old new (u +:+ t) = replace_from O old new t.
Proof. induction u as [|c u IH]; simpl; [by destruct t|done]. Qed.

(** An occurrence at the head is replaced, and the scan goes on after it. *)
Lemma replace_head c old new t :
  replace (String c old +:+ t) (String c old) new
  = new +:+ replace t (String c old) new.
Proof.
  unfold replace.
  change (String c old +:+ t) with (String c (old +:+ t)).
  cbn [replace_from].
  change (String c (old +:+ t)) with (String c old +:+ t).
  rewrite prefix_app. cbn [String.length]. rewrite Nat.sub_1_r. cbn [Nat.pred].
  by rewrite replace_from_skip.
Qed.

(** Where [old] does not occur nothing is replaced. *)
Lemma replace_absent s old new :
  occurs old s = false -> replace s old new = s.
Proof.
  unfold replace. induction s as [|c s IH]; [done|].
  cbn [occurs replace_from]. intros [Hp Ho]%orb_false_elim.
  rewrite Hp. by rewrite IH.
Qed.

(** Replacing one character by another is a map. *)
Lemma replace_char c d s :
  replace s (String c EmptyString) (String d EmptyString) = map_char c d s.
Proof.
  unfold replace. induction s as [|x s IH]; [done|].
  cbn [replace_from map_char String.length Nat.sub].
  assert (String.prefix (String c EmptyString) (String x s) = Ascii.eqb x c) as ->.
  { simpl. destruct (ascii_dec c x) as [->|Hne].
    - rewrite Ascii.eqb_refl. by destruct s.
    - symmetry. apply Ascii.eqb_neq. congruence. }
  rewrite IH. by destruct (Ascii.eqb x c).
Qed.

Lemma map_char_removes c d s : c ≠ d -> has_char c (map_char c d s) = false.
Proof.
  intros Hne. induction s as [|x s IH]; [done|]. simpl.
  destruct (Ascii.eqb_spec x c) as [->|Hx].
  - destruct (Ascii.eqb_spec c d); [done|]. exact IH.
  - destruct (Ascii.eqb_spec c x) as [->|_]; [done|]. exact IH.
Qed.

Lemma map_char_keeps_absent a c d s :
  a ≠ d -> has_char a s = false -> has_char a (map_char c d s) = false.
Proof.
  intros Hne. induction s as [|x s IH]; [done|]. simpl.
  intros [Hx Hs]%orb_false_elim. rewrite IH by done.
  destruct (Ascii.eqb x c); [|by rewrite Hx].
  by destruct (Ascii.eqb_spec a d).
Qed.

Lemma map_char_length c d s : String.length (map_char c d s) = String.length s.
Proof. induction s as [|x s IH]; simpl; [done|by rewrite IH]. Qed.

Lemma chars_app s t :
  list_ascii_of_string (s +:+ t) = list_ascii_of_string s ++ list_ascii_of_string t.
Proof. induction s as [|x s IH]; simpl; [done|by rewrite IH]. Qed.

Lemma drop_slashes_idem l : drop_slashes (drop_slashes l) = drop_slashes l.
Proof.
  induction l as [|c l IH]; [done|]. simpl.
  destruct (Ascii.eqb c "/") eqn:Hc; [done|]. simpl. by rewrite Hc.
Qed.

End StringFacts.

(* ===================================================================== *)
(** * More on the certificate API *)
(* ===================================================================== *)

Module ApiProps.

Import CertificateApi Issuance StringFacts Scenario Cases.

Ltac run := cbv [bind ret raise try_except lift get modify CertificateApi.http].

Section WithLib.
Context (lib : PyLib) (supabase : SimpleSupabaseClient).

(** X22. Issuance. For a verified user with a string identifier, a document that
    renders, an accepted upload and an accepted insert, [generate_certificate]
    sends the upload and then the insert, and returns the certificate whose
    identifier and document URL are those of the row it inserted; the URL is
    the public URL of the uploaded file. *)
Theorem issuance_records_what_it_returns w details authorization log
    user_info uid email pdf log1 :
  authenticate supabase w authorization log = (inr user_info, log1) ->
  subscript user_info "id" = inr (JStr uid) ->
  dict_get user_info "email" (JStr "unknown@example.com") = inr email ->
  generate_pdf_certificate w details (uuid4 w) email = inr pdf ->
  let name := filename lib (JStr uid) details (uuid4 w) in
  let row := certificate_row lib supabase w (JStr uid) email details in
  accepted w (upload_request supabase "certificates" name pdf) = true ->
  accepted w (insert_request supabase "certificates" row) = true ->
  generate_certificate lib supabase w details authorization log
  = (inr {| certificate_id := uuid4 w;
            pdf_url := get_public_url supabase "certificates" name;
            created_at := isoformat lib (now_reply w);
            user_id := uid;
            device_model := model details;
            message := "Certificate generated and stored successfully" |},
     log1 ++ [upload_request supabase "certificates" name pdf;
              insert_request supabase "certificates" row]) ∧
  subscript row "certificate_id" = inr (JStr (uuid4 w)) ∧
  subscript row "pdf_url"
  = inr (JStr (get_public_url supabase "certificates" name)).
Proof.
  intros Hauth Hid Hmail Hpdf name row Hup Hins.
  split; [|split; reflexivity].
  subst name row.
  unfold generate_certificate, upload_file, insert_record, accepted,
    certificate_row, filename in *.
  unfold try_except, bind at 1. rewrite Hauth. run. rewrite Hid, Hmail, Hpdf.
  destruct (net w (upload_request _ _ _ _)) as [e|up]; [discriminate Hup|].
  rewrite Hup. cbn [negb].
  destruct (net w (insert_request _ _ _)) as [e|ins]; [discriminate Hins|].
  rewrite Hins. cbn [negb]. by rewrite <- app_assoc.
Qed.

(** X23. A failed upload records nothing. When the upload raises or is answered
    with a status other than 200 and 201, [generate_certificate] answers 500
    having sent the upload as its last request: no row is inserted. *)
Theorem failed_upload_inserts_nothing w details authorization log
    user_info uid email pdf log1 :
  authenticate supabase w authorization log = (inr user_info, log1) ->
  subscript user_info "id" = inr uid ->
  dict_get user_info "email" (JStr "unknown@example.com") = inr email ->
  generate_pdf_certificate w details (uuid4 w) email = inr pdf ->
  let name := filename lib uid details (uuid4 w) in
  accepted w (upload_request supabase "certificates" name pdf) = false ->
  let out := generate_certificate lib supabase w details authorization log in
  http_status (fst out) = 500 ∧
  snd out = log1 ++ [upload_request supabase "certificates" name pdf].
Proof.
  intros Hauth Hid Hmail Hpdf name Hup out. subst out.
  assert (∃ d, generate_certificate lib supabase w details authorization log
               = (inl (HTTPException 500 d),
                  log1 ++ [upload_request supabase "certificates" name pdf]))
    as (d & ->); [|done].
  subst name.
  unfold generate_certificate, upload_file, accepted, filename in *.
  unfold try_except, bind at 1. rewrite Hauth. run. rewrite Hid, Hmail, Hpdf.
  destruct (net w (upload_request _ _ _ _)) as [e|up]; [eauto|].
  rewrite Hup. cbn [negb]. eauto.
Qed.

(** X24. A failed insert leaves the document behind. When the upload is accepted
    and the insert raises or is answered with a status other than 200 and
    201, [generate_certificate] answers 500 after both requests were sent:
    the document stays uploaded, and nothing is sent to remove it. *)
Theorem failed_insert_leaves_document w details authorization log
    user_info uid email pdf log1 :
  authenticate supabase w authorization log = (inr user_info, log1) ->
  subscript user_info "id" = inr uid ->
  dict_get user_info "email" (JStr "unknown@example.com") = inr email ->
  generate_pdf_certificate w details (uuid4 w) email = inr pdf ->
  let name := filename lib uid details (uuid4 w) in
  let row := certificate_row lib supabase w uid email details in
  accepted w (upload_request supabase "certificates" name pdf) = true ->
  accepted w (insert_request supabase "certificates" row) = false ->
  let out := generate_certificate lib supabase w details authorization log in
  http_status (fst out) = 500 ∧
  snd out = log1 ++ [upload_request supabase "certificates" name pdf;
                     insert_request supabase "certificates" row].
Proof.
  intros Hauth Hid Hmail Hpdf name row Hup Hins out. subst out.
  assert (∃ d, generate_certificate lib supabase w details authorization log
               = (inl (HTTPException 500 d),
                  log1 ++ [upload_request supabase "certificates" name pdf;
                           insert_request supabase "certificates" row]))
    as (d & ->); [|done].
  subst name row.
  unfold generate_certificate, upload_file, insert_record, accepted,
    certificate_row, filename in *.
  unfold try_except, bind at 1. rewrite Hauth. run. rewrite Hid, Hmail, Hpdf.
  destruct (net w (upload_request _ _ _ _)) as [e|up]; [discriminate Hup|].
  rewrite Hup. cbn [negb]. rewrite <- app_assoc.
  destruct (net w (insert_request _ _ _)) as [e|ins]; [eauto|].
  rewrite Hins. cbn [negb]. eauto.
Qed.

(** X25. Every failure of GET /user-info is a 401. The handler answers 200 when
    the user is verified and has an identifier, and 401 in every other case:
    a missing or malformed header, a rejected token, but also an exception
    raised while verifying. *)
Theorem user_info_answers_200_or_401 w authorization log :
  http_status (fst (get_user_info lib supabase w authorization log))
  = match verified_id supabase w authorization log with
    | Some _ => 200
    | None => 401
    end.
Proof.
  unfold get_user_info, verified_id. unfold try_except, bind at 1.
  destruct (authenticate supabase w authorization log) as [[e|user_info] log1];
    [reflexivity|]. run. simpl.
  destruct user_info; simpl; try reflexivity.
  destruct (assoc "id" fields); [|reflexivity].
  by destruct (assoc "email" fields).
Qed.

(** X26. The model in the file name. Once the user is verified and the
    document rendered, the first request [generate_certificate] sends is the
    upload of the document under the name
    [cert_<user id>_<model>_<certificate id>.pdf], in which every space and
    every slash of the device model has become an underscore: that part of
    the name has no space and no slash, and the length of the model. *)
Theorem model_is_sanitized w details authorization log user_info uid email pdf log1 :
  authenticate supabase w authorization log = (inr user_info, log1) ->
  subscript user_info "id" = inr uid ->
  dict_get user_info "email" (JStr "unknown@example.com") = inr email ->
  generate_pdf_certificate w details (uuid4 w) email = inr pdf ->
  let safe_model := map_char "/" "_" (map_char " " "_" (model details)) in
  let name :=
    "cert_" +:+ py_str lib uid +:+ "_" +:+ safe_model +:+ "_" +:+ uuid4 w
    +:+ ".pdf" in
  (∃ rest : list request,
     snd (generate_certificate lib supabase w details authorization log)
     = log1 ++ upload_request supabase "certificates" name pdf :: rest) ∧
  has_char " " safe_model = false ∧
  has_char "/" safe_model = false ∧
  String.length safe_model = String.length (model details).
Proof.
  intros Hauth Hid Hmail Hpdf safe_model name. split.
  - subst name safe_model.
    unfold generate_certificate, upload_file, insert_record.
    unfold try_except, bind at 1. rewrite Hauth. run. rewrite Hid, Hmail, Hpdf.
    rewrite !replace_char.
    destruct (net w (upload_request _ _ _ _)) as [e|up]; [by exists []|].
    destruct (ok_status (status_code up)); cbn [negb]; [|by exists []].
    destruct (net w (insert_request _ _ _)) as [e|ins].
    { eexists. cbn [snd]. by rewrite <- app_assoc. }
    destruct (ok_status (status_code ins)); cbn [negb].
    + eexists. destruct uid; cbn [snd]; by rewrite <- app_assoc.
    + eexists. cbn [snd]. by rewrite <- app_assoc.
  - subst safe_model. repeat split.
    + apply map_char_keeps_absent; [done|]. by apply map_char_removes.
    + by apply map_char_removes.
    + by rewrite !map_char_length.
Qed.

(** X27. The bearer token. For a header "Bearer <token>" the handlers verify the
    token with every occurrence of "Bearer " removed from it; when the token
    has none, the verification request carries the client's own
    Authorization header. *)
Theorem bearer_token_is_forwarded w token log :
  let sent := snd (authenticate supabase w (Some ("Bearer " +:+ token)) log) in
  sent = log ++ [verify_request supabase (replace token "Bearer " EmptyString)] ∧
  (occurs "Bearer " token = false ->
   sent = log ++ [verify_request supabase token] ∧
   headers (verify_request supabase token) !! "Authorization"
   = Some ("Bearer " +:+ token)).
Proof.
  cbv zeta.
  assert (snd (authenticate supabase w (Some ("Bearer " +:+ token)) log)
          = log ++ [verify_request supabase (replace token "Bearer " EmptyString)])
    as Hsent.
  { unfold authenticate, startswith.
    rewrite prefix_app.
    change (String.eqb ("Bearer " +:+ token) EmptyString) with false.
    cbn [orb negb]. rewrite replace_head.
    change (EmptyString +:+ ?x) with x.
    unfold verify_user. run.
    destruct (net w _) as [e|resp]; [done|].
    destruct (status_code resp =? 200); [|done].
    destruct (json_body resp) as [e|v]; [done|]. simpl.
    by destruct (truthy v). }
  split; [done|]. intros Habsent.
  rewrite Hsent, replace_absent by done. split; [done|].
  unfold verify_request. simpl. by simplify_map_eq.
Qed.

(** X28. Queries are scoped to the verified user. The listing handlers query the
    certificate table only for a verified user with an identifier, exactly
    once, and the query always filters on that user's identifier; without
    such a user they send nothing beyond the verification. *)
Theorem queries_are_scoped w device authorization limit offset log :
  let log1 := snd (authenticate supabase w authorization log) in
  let mine := snd (get_my_certificates lib supabase w authorization limit offset log) in
  let by_device :=
    snd (get_certificates_by_device lib supabase w device authorization log) in
  match verified_id supabase w authorization log with
  | Some uid =>
      let q1 := select_request lib supabase "certificates"
                  (Some [("user_id", uid)]) (Some limit) (Some offset) in
      let q2 := select_request lib supabase "certificates"
                  (Some [("user_id", uid); ("model", JStr device)]) None None in
      mine = log1 ++ [q1] ∧ by_device = log1 ++ [q2] ∧
      params q1 !! "user_id" = Some (JStr ("eq." +:+ py_str lib uid)) ∧
      params q2 !! "user_id" = Some (JStr ("eq." +:+ py_str lib uid)) ∧
      params q2 !! "model" = Some (JStr ("eq." +:+ device))
  | None => mine = log1 ∧ by_device = log1
  end.
Proof.
  cbv zeta. unfold verified_id, get_my_certificates, get_certificates_by_device,
    select_records. run.
  destruct (authenticate supabase w authorization log) as [[e|user_info] log1];
    cbn [fst snd]; [done|].
  destruct (subscript user_info "id") as [e|uid]; [done|].
  split; [|split; [|split; [|split]]].
  - destruct (net w _) as [e|resp]; [done|].
    destruct (status_code resp =? 200); simpl; [|done].
    destruct (json_body resp) as [e|data]; [done|].
    by destruct (py_len data).
  - destruct (net w _) as [e|resp]; [done|].
    destruct (status_code resp =? 200); simpl; [|done].
    destruct (json_body resp) as [e|data]; [done|].
    destruct (truthy data); simpl; [|done].
    destruct (index0 data) as [e|first]; [done|].
    destruct (subscript first "manufacturer"); [done|].
    by destruct (py_len data).
  - unfold select_request, select_params. simpl.
    destruct (limit =? 0), (offset =? 0); simpl; by simplify_map_eq.
  - unfold select_request, select_params. simpl. by simplify_map_eq.
  - unfold select_request, select_params. simpl. by simplify_map_eq.
Qed.

(** X29. What the listings return. For a verified user, GET /my-certificates
    succeeds exactly when the database answers its query with status 200 and
    a JSON body that has a length, and then returns that body as
    "certificates" and its length as "count". GET /certificates-by-device
    succeeds exactly when the database answers its query with status 200 and
    a non-empty body whose first element has a "manufacturer", and then
    returns that body, that manufacturer and the length of the body. *)
Theorem listings_count_their_rows w device authorization limit offset log uid :
  verified_id supabase w authorization log = Some uid ->
  let q1 := select_request lib supabase "certificates"
              (Some [("user_id", uid)]) (Some limit) (Some offset) in
  let q2 := select_request lib supabase "certificates"
              (Some [("user_id", uid); ("model", JStr device)]) None None in
  (∀ v, fst (get_my_certificates lib supabase w authorization limit offset log)
        = inr v ↔
        ∃ resp data n,
          net w q1 = inr resp ∧ status_code resp = 200 ∧
          json_body resp = inr data ∧ py_len data = inr n ∧
          v = JObj [("user_id", uid); ("certificates", data); ("count", JNum n)]) ∧
  (∀ v, fst (get_certificates_by_device lib supabase w device authorization log)
        = inr v ↔
        ∃ resp data first maker n,
          net w q2 = inr resp ∧ status_code resp = 200 ∧
          json_body resp = inr data ∧ truthy data = true ∧
          index0 data = inr first ∧
          subscript first "manufacturer" = inr maker ∧
          py_len data = inr n ∧
          v = JObj [("device_model", JStr device); ("manufacturer", maker);
                    ("total_certificates", JNum n); ("certificates", data)]).
Proof.
  unfold verified_id, get_my_certificates, get_certificates_by_device,
    select_records. run.
  destruct (authenticate supabase w authorization log) as [[e|user_info] log1];
    cbn [fst snd]; [discriminate|].
  destruct (subscript user_info "id") as [e|uid']; [discriminate|].
  intros [= ->]. split; intros v.
  - destruct (net w _) as [e|resp].
    { split; [discriminate|]. by intros (? & ? & ? & [=] & _). }
    destruct (status_code resp =? 200) eqn:Hst; simpl.
    2:{ split; [discriminate|]. intros (? & ? & ? & [= <-] & H200 & _).
        rewrite H200 in Hst. discriminate Hst. }
    apply Z.eqb_eq in Hst.
    destruct (json_body resp) as [e|data] eqn:Hbody.
    { split; [discriminate|]. intros (? & ? & ? & [= <-] & _ & Hb & _).
      rewrite Hbody in Hb. discriminate Hb. }
    destruct (py_len data) as [e|n] eqn:Hn.
    { split; [discriminate|]. intros (? & ? & ? & [= <-] & _ & Hb & Hl & _).
      rewrite Hbody in Hb. injection Hb as <-. rewrite Hn in Hl. discriminate Hl. }
    split.
    + intros [= <-]. by exists resp, data, n.
    + intros (? & ? & ? & [= <-] & _ & Hb & Hl & ->).
      rewrite Hbody in Hb. injection Hb as <-. rewrite Hn in Hl.
      by injection Hl as <-.
  - destruct (net w _) as [e|resp].
    { split; [discriminate|]. by intros (? & ? & ? & ? & ? & [=] & _). }
    destruct (status_code resp =? 200) eqn:Hst; simpl.
    2:{ split; [discriminate|]. intros (? & ? & ? & ? & ? & [= <-] & H200 & _).
        rewrite H200 in Hst. discriminate Hst. }
    apply Z.eqb_eq in Hst.
    destruct (json_body resp) as [e|data] eqn:Hbody.
    { split; [discriminate|]. intros (? & ? & ? & ? & ? & [= <-] & _ & Hb & _).
      rewrite Hbody in Hb. discriminate Hb. }
    destruct (truthy data) eqn:Ht; simpl.
    2:{ split; [discriminate|].
        intros (? & ? & ? & ? & ? & [= <-] & _ & Hb & Ht' & _).
        rewrite Hbody in Hb. injection Hb as <-. rewrite Ht in Ht'.
        discriminate Ht'. }
    destruct (index0 data) as [e|first] eqn:Hf.
    { split; [discriminate|].
      intros (? & ? & ? & ? & ? & [= <-] & _ & Hb & _ & Hf' & _).
      rewrite Hbody in Hb. injection Hb as <-. rewrite Hf in Hf'.
      discriminate Hf'. }
    destruct (subscript first "manufacturer") as [e|maker] eqn:Hm.
    { split; [discriminate|].
      intros (? & ? & ? & ? & ? & [= <-] & _ & Hb & _ & Hf' & Hm' & _).
      rewrite Hbody in Hb. injection Hb as <-. rewrite Hf in Hf'.
      injection Hf' as <-. rewrite Hm in Hm'. discriminate Hm'. }
    destruct (py_len data) as [e|n] eqn:Hn.
    { split; [discriminate|].
      intros (? & ? & ? & ? & ? & [= <-] & _ & Hb & _ & _ & _ & Hl & _).
      rewrite Hbody in Hb. injection Hb as <-. rewrite Hn in Hl.
      discriminate Hl. }
    split.
    + intros [= <-]. by exists resp, data, first, maker, n.
    + intros (? & ? & ? & ? & ? & [= <-] & _ & Hb & _ & Hf' & Hm' & Hl & ->).
      rewrite Hbody in Hb. injection Hb as <-. rewrite Hf in Hf'.
      injection Hf' as <-. rewrite Hm in Hm'. injection Hm' as <-.
      rewrite Hn in Hl. by injection Hl as <-.
Qed.

End WithLib.

Lemma issuance_records_what_it_returns_witness :
  fst (generate_certificate Ref.lib supabase api_world details0 (Some "Bearer good") [])
  = inr {| certificate_id := uuid4 api_world;
           pdf_url := get_public_url supabase "certificates"
                        (filename Ref.lib (JStr "u-1") details0 (uuid4 api_world));
           created_at := Ref.isoformat t0;
           user_id := "u-1";
           device_model := "Disk 9000/X";
           message := "Certificate generated and stored successfully" |}.
Proof.
  rewrite (proj1 (issuance_records_what_it_returns Ref.lib supabase api_world details0
                    (Some "Bearer good") [] good_user "u-1" (JStr "a@b.com")
                    "%PDF-1.4" verified_log eq_refl eq_refl eq_refl eq_refl
                    eq_refl eq_refl)).
  reflexivity.
Defined.

Lemma failed_upload_inserts_nothing_witness :
  snd (generate_certificate Ref.lib supabase (refusing is_upload) details0
         (Some "Bearer good") [])
  = verified_log
    ++ [upload_request supabase "certificates"
          (filename Ref.lib (JStr "u-1") details0 (uuid4 api_world)) "%PDF-1.4"].
Proof.
  apply (failed_upload_inserts_nothing Ref.lib supabase (refusing is_upload) details0
           (Some "Bearer good") [] good_user (JStr "u-1") (JStr "a@b.com")
           "%PDF-1.4" verified_log); reflexivity.
Defined.

Lemma failed_insert_leaves_document_witness :
  http_status
    (fst (generate_certificate Ref.lib supabase (refusing is_insert) details0
            (Some "Bearer good") [])) = 500.
Proof.
  apply (failed_insert_leaves_document Ref.lib supabase (refusing is_insert) details0
           (Some "Bearer good") [] good_user (JStr "u-1") (JStr "a@b.com")
           "%PDF-1.4" verified_log); reflexivity.
Defined.

Lemma bearer_token_is_forwarded_witness :
  snd (authenticate supabase api_world (Some "Bearer good") [])
  = [verify_request supabase "good"].
Proof.
  apply (proj2 (bearer_token_is_forwarded supabase api_world "good" [])).
  reflexivity.
Defined.

Lemma model_is_sanitized_witness :
  ∃ rest : list request,
    snd (generate_certificate Ref.lib supabase api_world details0
           (Some "Bearer good") [])
    = verified_log
      ++ upload_request supabase "certificates"
           "cert_u-1_Disk_9000_X_3f2b8c1e-0d4a-4c57-9f3e-6a1b2c3d4e5f.pdf" "%PDF-1.4"
         :: rest.
Proof.
  apply (model_is_sanitized Ref.lib supabase api_world details0 (Some "Bearer good")
           [] good_user (JStr "u-1") (JStr "a@b.com") "%PDF-1.4" verified_log);
    reflexivity.
Defined.

Lemma listings_count_their_rows_witness :
  fst (get_my_certificates Ref.lib supabase api_world_two (Some "Bearer good") 10 0 [])
  = inr (JObj [("user_id", JStr "u-1"); ("certificates", two_certificates);
               ("count", JNum 2)]) ∧
  fst (get_certificates_by_device Ref.lib supabase api_world_two "Disk 9000/X"
         (Some "Bearer good") [])
  = inr (JObj [("device_model", JStr "Disk 9000/X"); ("manufacturer", JStr "Acme");
               ("total_certificates", JNum 2); ("certificates", two_certificates)]).
Proof.
  pose proof (listings_count_their_rows Ref.lib supabase api_world_two "Disk 9000/X"
                (Some "Bearer good") 10 0 [] (JStr "u-1") eq_refl) as [Hmine Hdev].
  split.
  - apply Hmine. eexists _, two_certificates, 2.
    repeat split; reflexivity.
  - apply Hdev.
    eexists _, two_certificates, _, (JStr "Acme"), 2.
    repeat split; reflexivity.
Defined.

Lemma drop_slashes_head l c m : drop_slashes l = c :: m -> c ≠ "/"%char.
Proof.
  induction l as [|x l IH]; [done|]. simpl.
  destruct (Ascii.eqb_spec x "/") as [->|Hx]; [done|]. by intros [= <- <-].
Qed.

(** X30. Trailing slashes of the configured URL. The client drops every trailing
    slash of its URL: the stored URL never ends with a slash, stripping it
    again changes nothing, and a URL given with one more trailing slash
    makes the same client, hence the same requests. *)
Theorem client_ignores_trailing_slashes (url key : string) :
  (∀ t, client_url (new_client url key) ≠ t +:+ "/") ∧
  rstrip_slash (rstrip_slash url) = rstrip_slash url ∧
  new_client (url +:+ "/") key = new_client url key.
Proof.
  unfold new_client, rstrip_slash. cbn [client_url]. split; [|split].
  - intros t Heq. apply (f_equal list_ascii_of_string) in Heq.
    rewrite list_ascii_of_string_of_list_ascii, chars_app in Heq.
    apply (f_equal (@rev ascii)) in Heq.
    rewrite rev_involutive, rev_app_distr in Heq. simpl in Heq.
    by apply drop_slashes_head in Heq.
  - by rewrite list_ascii_of_string_of_list_ascii, rev_involutive, drop_slashes_idem.
  - rewrite chars_app, rev_app_distr. reflexivity.
Qed.

End ApiProps.
